(** * PhoenixGuard module signature verification (utils/pgmodverify.c)

    A shallow embedding of the appended-module-signature verifier and of
    its certificate cache, together with the properties of the trailer
    parser, of the verification result and of the cache that the design
    document states.

    Conventions of the embedding.
    - A file is its byte contents; a [FILE] stream is the contents and a
      position, and the stdio calls are state transformers on it.
    - [long] and [size_t] are 64-bit (LP64).  File sizes are below 2^63 and
      [sig_len] is below 2^32, so no integer operation of the program wraps
      and the integers are written in [Z] (lemma [find_arith_in_range]).
    - [struct module_signature] has the layout every common ABI gives it:
      five bytes, three bytes of padding, one aligned 32-bit word; 12 bytes.
      The word is read by [fread] straight into the struct, hence in the
      byte order of the host, which is a parameter.
    - OpenSSL, the file system, the clock and the allocator are external:
      they are the fields of the classes [OpenSSL] and [System].  Every
      allocation may fail, [strdup] included, whose return value the
      program stores without a check.  [malloc(64)] for the fingerprint,
      which the program writes to without a check, is taken to succeed. *)

From Stdlib Require Import String Ascii Strings.Byte.
From Stdlib Require Import ZArith List Lia Bool.
Import ListNotations.
Local Open Scope Z_scope.

(** ** Bytes and machine words *)

Definition u8 (b : byte) : Z := Z.of_N (Byte.to_N b).

Definition byte_of_Z (z : Z) : byte :=
  match Byte.of_N (Z.to_N (z mod 256)) with
  | Some b => b
  | None => x00
  end.

Inductive byte_order := LittleEndian | BigEndian.

(** The value of a [uint32_t] object whose four bytes, in address order,
    are [b0 b1 b2 b3]. *)
Definition load_u32 (e : byte_order) (b0 b1 b2 b3 : byte) : Z :=
  match e with
  | LittleEndian => u8 b0 + 256 * u8 b1 + 65536 * u8 b2 + 16777216 * u8 b3
  | BigEndian => u8 b3 + 256 * u8 b2 + 65536 * u8 b1 + 16777216 * u8 b0
  end.

(** The four bytes, in address order, of a [uint32_t] object of value [v]. *)
Definition store_u32 (e : byte_order) (v : Z) : list byte :=
  let c0 := byte_of_Z v in
  let c1 := byte_of_Z (v / 256) in
  let c2 := byte_of_Z (v / 65536) in
  let c3 := byte_of_Z (v / 16777216) in
  match e with
  | LittleEndian => [c0; c1; c2; c3]
  | BigEndian => [c3; c2; c1; c0]
  end.

Fixpoint memcmp_eq (a b : list byte) : bool :=
  match a, b with
  | [], [] => true
  | x :: a', y :: b' => Byte.eqb x y && memcmp_eq a' b'
  | _, _ => false
  end.

(** ** stdio streams *)

Record FILE := mkFILE { f_data : list byte; f_pos : Z }.

Definition file_length (f : FILE) : Z := Z.of_nat (length (f_data f)).

(** A computation on a stream. *)
Definition IO (A : Type) : Type := FILE -> A * FILE.

Definition ret {A} (a : A) : IO A := fun f => (a, f).

Definition bind {A B} (m : IO A) (k : A -> IO B) : IO B :=
  fun f => let (a, f') := m f in k a f'.

Notation "x <- m ;; k" := (bind m (fun x => k))
  (at level 61, m at next level, right associativity).
Notation "m ;;; k" := (bind m (fun _ => k))
  (at level 61, right associativity).

(** [fseek(f, off, SEEK_END)]; the program only uses [off = 0]. *)
Definition fseek_end (off : Z) : IO unit :=
  fun f =>
    let p := file_length f + off in
    (tt, if p <? 0 then f else mkFILE (f_data f) p).

(** [fseek(f, off, SEEK_SET)]: a negative offset is refused and the
    position stays. *)
Definition fseek_set (off : Z) : IO unit :=
  fun f => (tt, if off <? 0 then f else mkFILE (f_data f) off).

Definition ftell : IO Z := fun f => (f_pos f, f).

(** [fread(buf, 1, n, f)]: the bytes read, at most [n] and fewer at the end
    of the file; the return value of [fread] is their number. *)
Definition fread (n : Z) : IO (list byte) :=
  fun f =>
    let bs := firstn (Z.to_nat n) (skipn (Z.to_nat (f_pos f)) (f_data f)) in
    (bs, mkFILE (f_data f) (f_pos f + Z.of_nat (length bs))).

Definition fopen (contents : list byte) : FILE := mkFILE contents 0.

(** ** The signature trailer *)

Definition MODULE_SIG_STRING : list byte :=
  list_byte_of_string "~Module signature appended~" ++ [x0a].

Definition MODULE_SIG_STRING_LEN : Z := Z.of_nat (length MODULE_SIG_STRING).

Record module_signature := mk_module_signature {
  algo : byte;
  hash : byte;
  id_type : byte;
  signer_len : byte;
  key_id_len : byte;
  __pad : byte * byte * byte;
  sig_len : Z
}.

Definition sizeof_module_signature : Z := 12.

(** The object representation of the struct, and the struct that a block
    of [sizeof_module_signature] bytes read into it denotes. *)
Definition module_signature_bytes (e : byte_order) (s : module_signature)
  : list byte :=
  let '(p0, p1, p2) := __pad s in
  [algo s; hash s; id_type s; signer_len s; key_id_len s; p0; p1; p2]
    ++ store_u32 e (sig_len s).

Definition module_signature_of_bytes (e : byte_order) (bs : list byte)
  : option module_signature :=
  match bs with
  | [a; h; t; sl; kl; p0; p1; p2; l0; l1; l2; l3] =>
      Some (mk_module_signature a h t sl kl (p0, p1, p2) (load_u32 e l0 l1 l2 l3))
  | _ => None
  end.

(** [pg_find_module_signature(module_file, sig)]: the returned offset and
    the contents of [*sig] afterwards, [sig0] being its contents before. *)
Definition pg_find_module_signature (e : byte_order) (sig0 : module_signature)
  : IO (Z * module_signature) :=
  fseek_end 0 ;;;
  file_size <- ftell ;;
  if file_size <? MODULE_SIG_STRING_LEN + sizeof_module_signature then
    ret (-1, sig0)
  else
    fseek_set (file_size - MODULE_SIG_STRING_LEN) ;;;
    magic_buffer <- fread MODULE_SIG_STRING_LEN ;;
    if negb (Z.of_nat (length magic_buffer) =? MODULE_SIG_STRING_LEN) then
      ret (-1, sig0)
    else if negb (memcmp_eq magic_buffer MODULE_SIG_STRING) then
      ret (-1, sig0)
    else
      let sig_offset :=
        file_size - MODULE_SIG_STRING_LEN - sizeof_module_signature in
      fseek_set sig_offset ;;;
      raw <- fread sizeof_module_signature ;;
      match module_signature_of_bytes e raw with
      | None => ret (-1, sig0)
      | Some sig =>
          if (sig_len sig =? 0) || (sig_len sig >? file_size ÷ 2) then
            ret (-1, sig)
          else
            ret (sig_offset - sig_len sig, sig)
      end.

(** A header with another [algo] byte, and with other padding bytes. *)
Definition with_algo (a : byte) (s : module_signature) : module_signature :=
  mk_module_signature a (hash s) (id_type s) (signer_len s) (key_id_len s)
    (__pad s) (sig_len s).

Definition with_pad (p : byte * byte * byte) (s : module_signature)
  : module_signature :=
  mk_module_signature (algo s) (hash s) (id_type s) (signer_len s)
    (key_id_len s) p (sig_len s).

(** A file that ends in the image of a header and the magic string, and
    the layout the design document describes: content, signature, signer
    name, key identifier, header, magic. *)
Definition with_trailer (e : byte_order) (body : list byte)
  (s : module_signature) : list byte :=
  body ++ module_signature_bytes e s ++ MODULE_SIG_STRING.

Definition signed_file (e : byte_order)
  (content signature signer_name key_id : list byte) (s : module_signature)
  : list byte :=
  with_trailer e (content ++ signature ++ signer_name ++ key_id) s.

(** ** The environment: OpenSSL and the operating system *)

Inductive EVP_MD := EVP_sha1 | EVP_sha224 | EVP_sha256 | EVP_sha384 | EVP_sha512.

(** The OpenSSL calls of the program.  An absent result is a [NULL] or a
    zero return. *)
Class OpenSSL := {
  X509 : Type;
  EVP_PKEY : Type;
  EVP_PKEY_CTX : Type;
  EVP_MD_CTX : Type;
  PEM_read_X509 : list byte -> option X509;
  d2i_X509_fp : list byte -> option X509;
  X509_digest : X509 -> EVP_MD -> option (list byte);
  X509_digest_sha256_len :
    forall c md, X509_digest c EVP_sha256 = Some md -> length md = 32%nat;
  EVP_MD_size : EVP_MD -> Z;
  EVP_MD_CTX_new : option EVP_MD_CTX;
  EVP_DigestInit_ex : EVP_MD_CTX -> EVP_MD -> option EVP_MD_CTX;
  EVP_DigestUpdate : EVP_MD_CTX -> list byte -> option EVP_MD_CTX;
  EVP_DigestFinal_ex : EVP_MD_CTX -> option (list byte);
  X509_get_pubkey : X509 -> option EVP_PKEY;
  EVP_PKEY_CTX_new : EVP_PKEY -> option EVP_PKEY_CTX;
  EVP_PKEY_verify_init : EVP_PKEY_CTX -> Z;
  EVP_PKEY_verify : EVP_PKEY_CTX -> list byte -> list byte -> Z
}.

Inductive alloc_site :=
  alloc_cache_entry | alloc_result | alloc_sig_data | alloc_hash.

(** The fields of the result that hold a copy made by [strdup]. *)
Inductive strdup_site :=
  dup_error_message | dup_hash_algorithm | dup_signer | dup_algorithm.

(** The operating system and the C runtime as the program sees them. *)
Class System := {
  host_byte_order : byte_order;
  (** the contents of the file at a path, when [fopen] for reading succeeds *)
  file_contents : string -> option (list byte);
  (** [access(path, R_OK) == 0] *)
  access_R_OK : string -> bool;
  (** [time(NULL)] *)
  time_now : Z;
  (** whether the allocation of so many bytes at a site succeeds *)
  malloc_ok : alloc_site -> Z -> bool;
  (** whether [strdup] of a string, for a field, finds memory *)
  strdup_ok : strdup_site -> string -> bool;
  (** the contents of an uninitialised [struct module_signature] *)
  indeterminate_sig : module_signature;
  (** the contents of freshly allocated memory *)
  indeterminate_mem : Z -> ascii
}.

(** ** The certificate cache *)

Section Program.

Context {ssl : OpenSSL} {sys : System}.

Record cert_cache_entry_t := mk_cert_cache_entry {
  cert : X509;
  fingerprint : string
}.

(** The global variables.  [cert_cache] is the linked list from its head:
    the [next] field of an entry is the tail of the list. *)
Record globals := mk_globals {
  cert_cache : list cert_cache_entry_t;
  openssl_initialized : Z
}.

Definition initial_globals : globals := mk_globals [] 0.

Definition pg_init_openssl (g : globals) : Z * globals :=
  if negb (openssl_initialized g =? 0) then (1, g)
  else (1, mk_globals (cert_cache g) 1).

(** *** The fingerprint buffer

    [entry->fingerprint] is a block of [fingerprint_size] bytes; the program
    fills it by stores at offsets from its start.  The stores are kept as a
    trace, in program order, and the string the entry ends up with is what
    is read back from the memory they leave. *)

Definition fingerprint_size : Z := 64.

Definition NUL : ascii := Ascii.zero.

Definition hex_digit (n : Z) : ascii :=
  nth (Z.to_nat n)
    ["0"; "1"; "2"; "3"; "4"; "5"; "6"; "7"; "8"; "9";
     "a"; "b"; "c"; "d"; "e"; "f"]%char "0"%char.

(** [sprintf(p, "%02x", b)] for an [unsigned char b]: the characters stored
    from [p] on, the terminating NUL included. *)
Definition sprintf_02x (b : byte) : list ascii :=
  [hex_digit (u8 b / 16); hex_digit (u8 b mod 16); NUL].

Definition strcpy_chars (s : string) : list ascii :=
  list_ascii_of_string s ++ [NUL].

Fixpoint stores_at (off : Z) (cs : list ascii) : list (Z * ascii) :=
  match cs with
  | [] => []
  | c :: cs' => (off, c) :: stores_at (off + 1) cs'
  end.

(** The loop [for (i = 0; i < md_len; i++) sprintf(fp + i*2, ...)], from
    index [i] on, [md] being the digest bytes still to print. *)
Fixpoint fingerprint_loop (i : Z) (md : list byte) : list (Z * ascii) :=
  match md with
  | [] => []
  | b :: md' => stores_at (i * 2) (sprintf_02x b) ++ fingerprint_loop (i + 1) md'
  end.

(** Every store into the fingerprint buffer, by the outcome of
    [X509_digest]. *)
Definition fingerprint_stores (digest : option (list byte)) : list (Z * ascii) :=
  match digest with
  | Some md =>
      fingerprint_loop 0 md ++ [(Z.of_nat (length md) * 2, NUL)]
  | None => stores_at 0 (strcpy_chars "unknown")
  end.

Definition store_in_bounds (size : Z) (st : Z * ascii) : bool :=
  (0 <=? fst st) && (fst st <? size).

Definition stores_in_bounds (size : Z) (sts : list (Z * ascii)) : bool :=
  forallb (store_in_bounds size) sts.

Definition apply_store (mem : Z -> ascii) (st : Z * ascii) : Z -> ascii :=
  fun a => if a =? fst st then snd st else mem a.

(** The C string at offset [a]: the characters before the first NUL. *)
Fixpoint c_string (fuel : nat) (mem : Z -> ascii) (a : Z) : string :=
  match fuel with
  | O => EmptyString
  | S fuel' =>
      if Ascii.eqb (mem a) NUL then EmptyString
      else String (mem a) (c_string fuel' mem (a + 1))
  end.

Definition fingerprint_of (digest : option (list byte)) : string :=
  let sts := fingerprint_stores digest in
  c_string (length sts) (fold_left apply_store sts indeterminate_mem) 0.

(** The lowercase hexadecimal text of a byte string. *)
Definition hex_string (md : list byte) : string :=
  string_of_list_ascii
    (flat_map (fun b => [hex_digit (u8 b / 16); hex_digit (u8 b mod 16)]) md).

(** [pg_load_certificate(cert_path)]: the return value and the globals
    afterwards. *)
Definition pg_load_certificate (cert_path : string) (g : globals)
  : Z * globals :=
  let (ok, g) := pg_init_openssl g in
  if ok =? 0 then (0, g) else
  match file_contents cert_path with
  | None => (0, g)
  | Some cert_file =>
      let parsed :=
        match PEM_read_X509 cert_file with
        | Some c => Some c
        | None =>
            (* Try DER format *)
            match file_contents cert_path with
            | Some cert_file' => d2i_X509_fp cert_file'
            | None => None
            end
        end in
      match parsed with
      | None => (0, g)
      | Some c =>
          if negb (malloc_ok alloc_cache_entry 24) then (0, g)
          else
            let entry :=
              mk_cert_cache_entry c (fingerprint_of (X509_digest c EVP_sha256)) in
            (1, mk_globals (entry :: cert_cache g) (openssl_initialized g))
      end
  end.

Definition cert_files : list string :=
  ["user_secureboot.crt"; "user_secureboot.pem"; "user_secureboot.der";
   "phoenixguard.crt"; "phoenixguard.pem"]%string.

(** [snprintf(cert_path, 512, "%s/%s", dir, name)]: at most 511 characters
    are kept. *)
Definition snprintf_path (dir name : string) : string :=
  substring 0 511 (dir ++ "/" ++ name).

Fixpoint load_each (cert_dir : string) (names : list string)
  (loaded : Z) (g : globals) : Z * globals :=
  match names with
  | [] => (loaded, g)
  | name :: rest =>
      let cert_path := snprintf_path cert_dir name in
      if access_R_OK cert_path then
        let (r, g') := pg_load_certificate cert_path g in
        load_each cert_dir rest (if r =? 0 then loaded else loaded + 1) g'
      else load_each cert_dir rest loaded g
  end.

Definition pg_load_certificates_from_dir (cert_dir : string) (g : globals)
  : Z * globals :=
  load_each cert_dir cert_files 0 g.

(** [pg_cleanup()]: every entry is freed and the list is empty again. *)
Definition pg_cleanup (g : globals) : globals :=
  mk_globals [] (openssl_initialized g).

(** ** Verification *)

Record pg_verify_result_t := mk_result {
  valid : Z;
  has_signature : Z;
  signer : option string;
  algorithm : option string;
  hash_algorithm : option string;
  error_message : option string;
  signature_offset : Z;
  signature_size : Z;
  verification_time : Z
}.

(** [calloc(1, sizeof(pg_verify_result_t))]: every field zero or [NULL]. *)
Definition zeroed_result : pg_verify_result_t :=
  mk_result 0 0 None None None None 0 0 0.

Definition set_verification_time (t : Z) (r : pg_verify_result_t) :=
  mk_result (valid r) (has_signature r) (signer r) (algorithm r)
    (hash_algorithm r) (error_message r) (signature_offset r)
    (signature_size r) t.

(** [strdup(s)]: the copy, or [NULL] when there is no memory for it. *)
Definition strdup (site : strdup_site) (s : string) : option string :=
  if strdup_ok site s then Some s else None.

(** [result->error_message = strdup(m)] *)
Definition set_error_message (m : string) (r : pg_verify_result_t) :=
  mk_result (valid r) (has_signature r) (signer r) (algorithm r)
    (hash_algorithm r) (strdup dup_error_message m) (signature_offset r)
    (signature_size r) (verification_time r).

Definition set_has_signature (v : Z) (r : pg_verify_result_t) :=
  mk_result (valid r) v (signer r) (algorithm r) (hash_algorithm r)
    (error_message r) (signature_offset r) (signature_size r)
    (verification_time r).

Definition set_signature_offset (v : Z) (r : pg_verify_result_t) :=
  mk_result (valid r) (has_signature r) (signer r) (algorithm r)
    (hash_algorithm r) (error_message r) v (signature_size r)
    (verification_time r).

Definition set_signature_size (v : Z) (r : pg_verify_result_t) :=
  mk_result (valid r) (has_signature r) (signer r) (algorithm r)
    (hash_algorithm r) (error_message r) (signature_offset r) v
    (verification_time r).

(** [result->hash_algorithm = strdup(m)] *)
Definition set_hash_algorithm (m : string) (r : pg_verify_result_t) :=
  mk_result (valid r) (has_signature r) (signer r) (algorithm r)
    (strdup dup_hash_algorithm m) (error_message r) (signature_offset r)
    (signature_size r) (verification_time r).

(** The three stores of the successful branch of the certificate loop. *)
Definition set_verified (fp : string) (r : pg_verify_result_t) :=
  mk_result 1 (has_signature r) (strdup dup_signer fp)
    (strdup dup_algorithm "rsa") (hash_algorithm r) (error_message r)
    (signature_offset r) (signature_size r) (verification_time r).

(** [pg_extract_signature(module_file, sig, sig_data_offset)] *)
Definition pg_extract_signature (sig : module_signature) (sig_data_offset : Z)
  : IO (option (list byte)) :=
  if negb (malloc_ok alloc_sig_data (sig_len sig)) then ret None
  else
    fseek_set sig_data_offset ;;;
    sig_data <- fread (sig_len sig) ;;
    if negb (Z.of_nat (length sig_data) =? sig_len sig) then ret None
    else ret (Some sig_data).

Inductive loop_outcome :=
| LoopDone (ctx : EVP_MD_CTX)
| LoopUpdateFailed
| LoopOutOfFuel.

Definition sizeof_buffer : Z := 8192.

(** The [while (bytes_remaining > 0)] loop of [pg_calculate_module_hash].
    Every turn that does not leave the loop reads at least one byte, so
    [bytes_remaining] turns are enough ([hash_loop_fuel]). *)
Fixpoint hash_loop (fuel : nat) (ctx : EVP_MD_CTX) (bytes_remaining : Z)
  : IO loop_outcome :=
  match fuel with
  | O => ret LoopOutOfFuel
  | S fuel' =>
      if bytes_remaining >? 0 then
        let to_read :=
          if bytes_remaining >? sizeof_buffer then sizeof_buffer
          else bytes_remaining in
        buffer <- fread to_read ;;
        let bytes_read := Z.of_nat (length buffer) in
        if bytes_read =? 0 then ret (LoopDone ctx)
        else
          match EVP_DigestUpdate ctx buffer with
          | None => ret LoopUpdateFailed
          | Some ctx' => hash_loop fuel' ctx' (bytes_remaining - bytes_read)
          end
      else ret (LoopDone ctx)
  end.

(** [pg_calculate_module_hash(module_file, content_end, hash_algo, &hash_len)]:
    the digest, whose length is [hash_len]. *)
Definition pg_calculate_module_hash (content_end : Z) (hash_algo : EVP_MD)
  : IO (option (list byte)) :=
  match EVP_MD_CTX_new with
  | None => ret None
  | Some ctx =>
      match EVP_DigestInit_ex ctx hash_algo with
      | None => ret None
      | Some ctx =>
          if negb (malloc_ok alloc_hash (EVP_MD_size hash_algo)) then ret None
          else
            fseek_set 0 ;;;
            out <- hash_loop (S (Z.to_nat content_end)) ctx content_end ;;
            match out with
            | LoopDone ctx' => ret (EVP_DigestFinal_ex ctx')
            | LoopUpdateFailed => ret None
            | LoopOutOfFuel => ret None
            end
      end
  end.

(** [pg_verify_signature_with_cert(hash, hash_len, signature, sig_len, cert)] *)
Definition pg_verify_signature_with_cert (hash_bytes signature : list byte)
  (c : X509) : Z :=
  match X509_get_pubkey c with
  | None => 0
  | Some pkey =>
      match EVP_PKEY_CTX_new pkey with
      | None => 0
      | Some pkey_ctx =>
          if EVP_PKEY_verify_init pkey_ctx <=? 0 then 0
          else if EVP_PKEY_verify pkey_ctx signature hash_bytes =? 1 then 1
          else 0
      end
  end.

(** The loop over the cache, from [cert_entry] on: the result and
    [verified] afterwards. *)
Fixpoint try_certificates (module_hash sig_data : list byte)
  (cert_entry : list cert_cache_entry_t) (result : pg_verify_result_t)
  : pg_verify_result_t * Z :=
  match cert_entry with
  | [] => (result, 0)
  | entry :: next =>
      if negb (pg_verify_signature_with_cert module_hash sig_data (cert entry) =? 0)
      then (set_verified (fingerprint entry) result, 1)
      else try_certificates module_hash sig_data next result
  end.

Definition hash_algorithm_of (h : byte) : option (EVP_MD * string) :=
  match u8 h with
  | 0 => Some (EVP_sha1, "sha1"%string)
  | 1 => Some (EVP_sha224, "sha224"%string)
  | 2 => Some (EVP_sha256, "sha256"%string)
  | 3 => Some (EVP_sha384, "sha384"%string)
  | 4 => Some (EVP_sha512, "sha512"%string)
  | _ => None
  end.

Definition sizeof_result : Z := 64.

(** [pg_verify_module_signature(module_path)]; [None] is the [NULL]
    return. *)
Definition pg_verify_module_signature (module_path : string) (g : globals)
  : option pg_verify_result_t :=
  if negb (malloc_ok alloc_result sizeof_result) then None
  else
    let result := set_verification_time time_now zeroed_result in
    match file_contents module_path with
    | None => Some (set_error_message "Failed to open module file" result)
    | Some contents =>
        let module_file := fopen contents in
        let '((sig_data_offset, sig), module_file) :=
          pg_find_module_signature host_byte_order indeterminate_sig module_file in
        if sig_data_offset <? 0 then
          Some (set_error_message "No signature found in module"
                  (set_has_signature 0 result))
        else
          let result :=
            set_signature_size (sig_len sig)
              (set_signature_offset sig_data_offset
                 (set_has_signature 1 result)) in
          match pg_extract_signature sig sig_data_offset module_file with
          | (None, _) =>
              Some (set_error_message "Failed to extract signature data" result)
          | (Some sig_data, module_file) =>
              match hash_algorithm_of (hash sig) with
              | None => Some (set_error_message "Unknown hash algorithm" result)
              | Some (hash_algo, name) =>
                  let result := set_hash_algorithm name result in
                  match pg_calculate_module_hash sig_data_offset hash_algo
                          module_file with
                  | (None, _) =>
                      Some (set_error_message
                              "Failed to calculate module hash" result)
                  | (Some module_hash, _) =>
                      let (result, verified) :=
                        try_certificates module_hash sig_data (cert_cache g)
                          result in
                      if verified =? 0 then
                        Some (set_error_message
                                "Signature verification failed against all certificates"
                                result)
                      else Some result
                  end
              end
          end
    end.

(** ** The test program *)


(** ** Functions used to state the properties

    They are not part of the program: they name what the program is shown
    to compute on a file that ends in a header and the magic string. *)

(** The value [pg_find_module_signature] returns for a file of [N] bytes
    whose header says [s]. *)
Definition found_offset (N : Z) (s : module_signature) : Z :=
  if (sig_len s =? 0) || (sig_len s >? N ÷ 2) then -1
  else N - MODULE_SIG_STRING_LEN - sizeof_module_signature - sig_len s.

(** The digest the program computes for a file that holds [content] and
    nothing else. *)
Definition digest_of_content (hash_algo : EVP_MD) (content : list byte)
  : option (list byte) :=
  fst (pg_calculate_module_hash (Z.of_nat (length content)) hash_algo
         (fopen content)).

(** The result for a file in which no signature is found. *)
Definition no_signature_result : pg_verify_result_t :=
  set_error_message "No signature found in module"
    (set_has_signature 0 (set_verification_time time_now zeroed_result)).

(** The result for a file made of [content], [signature], a header [s]
    and the magic, as a function of these parts and of the cache. *)
Definition verdict (g : globals) (content signature : list byte)
  (s : module_signature) : pg_verify_result_t :=
  let result :=
    set_signature_size (sig_len s)
      (set_signature_offset (Z.of_nat (length content))
         (set_has_signature 1 (set_verification_time time_now zeroed_result))) in
  if malloc_ok alloc_sig_data (sig_len s) then
    match hash_algorithm_of (hash s) with
    | None => set_error_message "Unknown hash algorithm" result
    | Some (hash_algo, name) =>
        let result := set_hash_algorithm name result in
        match digest_of_content hash_algo content with
        | None => set_error_message "Failed to calculate module hash" result
        | Some module_hash =>
            let (result, verified) :=
              try_certificates module_hash signature (cert_cache g) result in
            if verified =? 0 then
              set_error_message
                "Signature verification failed against all certificates" result
            else result
        end
    end
  else set_error_message "Failed to extract signature data" result.

(** The blocks of at most [sizeof_buffer] bytes a byte string is cut
    into, in order; [fuel] blocks at most. *)
Fixpoint chunks (fuel : nat) (data : list byte) : list (list byte) :=
  match fuel with
  | O => []
  | S fuel' =>
      match data with
      | [] => []
      | _ :: _ =>
          firstn (Z.to_nat sizeof_buffer) data
            :: chunks fuel' (skipn (Z.to_nat sizeof_buffer) data)
      end
  end.

(** [EVP_DigestUpdate] on each block in turn. *)
Fixpoint update_all (ctx : EVP_MD_CTX) (blocks : list (list byte))
  : option EVP_MD_CTX :=
  match blocks with
  | [] => Some ctx
  | b :: blocks' =>
      match EVP_DigestUpdate ctx b with
      | None => None
      | Some ctx' => update_all ctx' blocks'
      end
  end.

(** The digest obtained by feeding the blocks to a fresh context, with
    the allocations of [pg_calculate_module_hash]. *)
Definition digest_of_blocks (hash_algo : EVP_MD) (blocks : list (list byte))
  : option (list byte) :=
  match EVP_MD_CTX_new with
  | None => None
  | Some ctx =>
      match EVP_DigestInit_ex ctx hash_algo with
      | None => None
      | Some ctx =>
          if malloc_ok alloc_hash (EVP_MD_size hash_algo) then
            match update_all ctx blocks with
            | None => None
            | Some ctx' => EVP_DigestFinal_ex ctx'
            end
          else None
      end
  end.

End Program.

(** ** A test bench: a scripted provider and a file system given as a table

    The provider is deterministic and keeps no secrets: a certificate is its
    DER bytes, its public key is its second byte, a digest is the first
    bytes of the data, zero-padded to the digest size, and a signature is
    valid for a key when it is the key byte followed by the first digest
    byte.  It is only used to run the program on concrete inputs. *)

Module Bench.

Definition pad_to (n : nat) (bs : list byte) : list byte :=
  firstn n (bs ++ repeat x00 n).

Definition md_size (md : EVP_MD) : nat :=
  match md with
  | EVP_sha1 => 20
  | EVP_sha224 => 28
  | EVP_sha256 => 32
  | EVP_sha384 => 48
  | EVP_sha512 => 64
  end%nat.

Definition read_pem (bs : list byte) : option (list byte) :=
  match bs with
  | x2d :: der => Some der
  | _ => None
  end.

Definition read_der (bs : list byte) : option (list byte) :=
  match bs with
  | x30 :: _ => Some bs
  | _ => None
  end.

Definition pubkey_byte (der : list byte) : byte := nth 1 der x00.

Definition check_signature (key : byte) (signature tbs : list byte) : Z :=
  if memcmp_eq signature (key :: firstn 1 tbs) then 1 else 0.

Definition ssl : OpenSSL := {|
  X509 := list byte;
  EVP_PKEY := byte;
  EVP_PKEY_CTX := byte;
  EVP_MD_CTX := EVP_MD * list byte;
  PEM_read_X509 := read_pem;
  d2i_X509_fp := read_der;
  X509_digest := fun c md => Some (pad_to (md_size md) c);
  X509_digest_sha256_len :=
    ltac:(intros c md [= <-]; unfold pad_to;
          rewrite length_firstn, length_app, repeat_length; lia);
  EVP_MD_size := fun md => Z.of_nat (md_size md);
  EVP_MD_CTX_new := Some (EVP_sha1, []);
  EVP_DigestInit_ex := fun _ md => Some (md, []);
  EVP_DigestUpdate := fun ctx bs => Some (fst ctx, snd ctx ++ bs);
  EVP_DigestFinal_ex := fun ctx => Some (pad_to (md_size (fst ctx)) (snd ctx));
  X509_get_pubkey := fun c => Some (pubkey_byte c);
  EVP_PKEY_CTX_new := fun k => Some k;
  EVP_PKEY_verify_init := fun _ => 1;
  EVP_PKEY_verify := check_signature
|}.

Fixpoint lookup (fs : list (string * list byte)) (path : string)
  : option (list byte) :=
  match fs with
  | [] => None
  | (p, contents) :: fs' =>
      if String.eqb p path then Some contents else lookup fs' path
  end.

Definition zero_sig : module_signature :=
  mk_module_signature x00 x00 x00 x00 x00 (x00, x00, x00) 0.

(** A host of the given byte order whose files are those of the table and
    whose allocations all succeed. *)
Definition sys (e : byte_order) (fs : list (string * list byte)) : System := {|
  host_byte_order := e;
  file_contents := lookup fs;
  access_R_OK := fun p => match lookup fs p with Some _ => true | None => false end;
  time_now := 1700000000;
  malloc_ok := fun _ _ => true;
  strdup_ok := fun _ _ => true;
  indeterminate_sig := zero_sig;
  indeterminate_mem := fun _ => "?"%char
|}.

(** Two certificates with the same public key [x07], and a third one with
    another key. *)
Definition der_A : list byte := [x30; x07; x41].
Definition der_B : list byte := [x30; x07; x42].
Definition der_C : list byte := [x30; x09; x43].

(** A module: 64 content bytes [0xAB], a 2-byte signature valid for key
    [x07], then the header and the magic string.  The header is given by
    its fields. *)
Definition content : list byte := repeat xab 64.

Definition signature_07 : list byte := [x07; xab].

Definition hdr_sha256 (len : Z) : module_signature :=
  mk_module_signature x00 x02 x01 x00 x00 (x00, x00, x00) len.

Definition signed_module (e : byte_order) : list byte :=
  with_trailer e (content ++ signature_07) (hdr_sha256 2).

(** The files of the bench: three certificates, one of them also in PEM
    armour, and modules built from the same content and signature. *)
Definition fs (e : byte_order) : list (string * list byte) :=
  [("A.crt", der_A); ("B.crt", der_B); ("C.crt", der_C);
   ("A.pem", x2d :: der_A);
   ("signed.ko", signed_module e);
   ("algo1.ko",
    with_trailer e (content ++ signature_07) (with_algo x01 (hdr_sha256 2)));
   ("pad1.ko",
    with_trailer e (content ++ signature_07)
      (with_pad (x01, x00, x00) (hdr_sha256 2)));
   ("unsigned.ko", repeat x7f 2048)]%string.

Definition host (e : byte_order) : System := sys e (fs e).

Definition fp_A : string :=
  "3007410000000000000000000000000000000000000000000000000000000000".

Definition fp_B : string :=
  "3007420000000000000000000000000000000000000000000000000000000000".

Definition entry_A : @cert_cache_entry_t ssl :=
  @mk_cert_cache_entry ssl der_A fp_A.

Definition entry_B : @cert_cache_entry_t ssl :=
  @mk_cert_cache_entry ssl der_B fp_B.

Definition cache_of (l : list (@cert_cache_entry_t ssl)) : @globals ssl :=
  @mk_globals ssl l 1.

(** The result for the signed module when the certificate of fingerprint
    [fp] verifies it. *)
Definition valid_result (fp : string) : pg_verify_result_t :=
  mk_result 1 1 (Some fp) (Some "rsa"%string) (Some "sha256"%string) None
    64 2 1700000000.

Definition unsigned_result : pg_verify_result_t :=
  mk_result 0 0 None None None (Some "No signature found in module"%string)
    0 0 1700000000.

End Bench.

(** More cases for the bench: a module whose hash identifier is 5, a
    directory of certificates, and a host that has no memory for a
    signature buffer. *)
Module Cases.

Definition hdr_hash5 : module_signature :=
  mk_module_signature x00 x05 x01 x00 x00 (x00, x00, x00) 2.

Definition hash5_module : list byte :=
  with_trailer LittleEndian (Bench.content ++ Bench.signature_07) hdr_hash5.

Definition fs : list (string * list byte) :=
  Bench.fs LittleEndian ++
  [("hash5.ko"%string, hash5_module);
   ("/k/user_secureboot.crt"%string, Bench.der_A);
   ("/k/phoenixguard.crt"%string, Bench.der_B);
   ("/k/other.crt"%string, Bench.der_C)].

Definition host : System := Bench.sys LittleEndian fs.

(** The same files without the one the loader has no name for. *)
Definition host_without_other : System :=
  Bench.sys LittleEndian
    (Bench.fs LittleEndian ++
     [("hash5.ko"%string, hash5_module);
      ("/k/user_secureboot.crt"%string, Bench.der_A);
      ("/k/phoenixguard.crt"%string, Bench.der_B)]).

Definition host_without_sig_memory : System := {|
  host_byte_order := LittleEndian;
  file_contents := Bench.lookup fs;
  access_R_OK :=
    fun p => match Bench.lookup fs p with Some _ => true | None => false end;
  time_now := 1700000000;
  malloc_ok :=
    fun site _ => match site with alloc_sig_data => false | _ => true end;
  strdup_ok := fun _ _ => true;
  indeterminate_sig := Bench.zero_sig;
  indeterminate_mem := fun _ => "?"%char
|}.

(** A host on which [malloc] and [calloc] find memory and [strdup] does
    not. *)
Definition host_without_strdup : System := {|
  host_byte_order := LittleEndian;
  file_contents := Bench.lookup fs;
  access_R_OK :=
    fun p => match Bench.lookup fs p with Some _ => true | None => false end;
  time_now := 1700000000;
  malloc_ok := fun _ _ => true;
  strdup_ok := fun _ _ => false;
  indeterminate_sig := Bench.zero_sig;
  indeterminate_mem := fun _ => "?"%char
|}.

Definition fp_C : string :=
  "3009430000000000000000000000000000000000000000000000000000000000".

Definition entry_C : @cert_cache_entry_t Bench.ssl :=
  @mk_cert_cache_entry Bench.ssl Bench.der_C fp_C.

(** The digest the bench provider gives for the content of the modules. *)
Definition content_digest : list byte := Bench.pad_to 32 Bench.content.

End Cases.

(** * Properties *)

(** ** Bytes, words and the header image *)

Lemma u8_range b : 0 <= u8 b < 256.
Proof.
  unfold u8. pose proof (Byte.to_N_bounded b). lia.
Qed.

Lemma byte_of_Z_eq z b : z mod 256 = u8 b -> byte_of_Z z = b.
Proof.
  intros E. unfold byte_of_Z. rewrite E. unfold u8.
  now rewrite N2Z.id, Byte.of_to_N.
Qed.

Lemma byte_of_Z_u8 b : byte_of_Z (u8 b) = b.
Proof.
  apply byte_of_Z_eq, Z.mod_small, u8_range.
Qed.

Lemma u8_byte_of_Z z : u8 (byte_of_Z z) = z mod 256.
Proof.
  assert (R : 0 <= z mod 256 < 256) by (apply Z.mod_pos_bound; lia).
  unfold byte_of_Z, u8.
  destruct (Byte.of_N (Z.to_N (z mod 256))) as [b|] eqn:E.
  - apply Byte.to_of_N in E. rewrite E. apply Z2N.id, R.
  - apply Byte.of_N_None_iff in E. lia.
Qed.

Ltac by_div_mod := Z.div_mod_to_equations; lia.

(** A value stored in a 32-bit word is read back modulo [2 ^ 32]. *)
Lemma load_store_u32 e v :
  exists b0 b1 b2 b3,
    store_u32 e v = [b0; b1; b2; b3] /\
    load_u32 e b0 b1 b2 b3 = v mod 2 ^ 32.
Proof.
  change (2 ^ 32) with 4294967296.
  destruct e; cbn [store_u32]; do 4 eexists; (split; [reflexivity|]);
    cbn [load_u32]; rewrite !u8_byte_of_Z; by_div_mod.
Qed.

Lemma store_load_u32 e b0 b1 b2 b3 :
  store_u32 e (load_u32 e b0 b1 b2 b3) = [b0; b1; b2; b3].
Proof.
  pose proof (u8_range b0). pose proof (u8_range b1).
  pose proof (u8_range b2). pose proof (u8_range b3).
  destruct e; cbn [store_u32 load_u32];
    repeat (f_equal; try (apply byte_of_Z_eq; by_div_mod)).
Qed.

Lemma load_u32_range e b0 b1 b2 b3 : 0 <= load_u32 e b0 b1 b2 b3 < 2 ^ 32.
Proof.
  pose proof (u8_range b0). pose proof (u8_range b1).
  pose proof (u8_range b2). pose proof (u8_range b3).
  change (2 ^ 32) with 4294967296. destruct e; cbn [load_u32]; lia.
Qed.

(** Reading a header back from its image gives the header, with its
    length reduced to 32 bits. *)
Lemma module_signature_of_bytes_image_mod e s :
  module_signature_of_bytes e (module_signature_bytes e s) =
    Some (mk_module_signature (algo s) (hash s) (id_type s) (signer_len s)
            (key_id_len s) (__pad s) (sig_len s mod 2 ^ 32)).
Proof.
  destruct s as [a h t sl kl [[p0 p1] p2] len].
  destruct (load_store_u32 e len) as (b0 & b1 & b2 & b3 & St & Ld).
  unfold module_signature_bytes.
  cbn [__pad algo hash id_type signer_len key_id_len sig_len].
  rewrite St. cbn. now rewrite Ld.
Qed.

Lemma module_signature_of_bytes_image e s :
  0 <= sig_len s < 2 ^ 32 ->
  module_signature_of_bytes e (module_signature_bytes e s) = Some s.
Proof.
  intros R. rewrite module_signature_of_bytes_image_mod.
  rewrite Z.mod_small by exact R. now destruct s.
Qed.

(** Every block of 12 bytes is the image of the header read from it. *)
Lemma module_signature_bytes_of_bytes e raw s :
  module_signature_of_bytes e raw = Some s ->
  module_signature_bytes e s = raw /\ 0 <= sig_len s < 2 ^ 32.
Proof.
  do 13 (destruct raw as [|? raw]; try discriminate).
  cbn. intros [= <-]. split.
  - unfold module_signature_bytes. cbn. now rewrite store_load_u32.
  - cbn. apply load_u32_range.
Qed.

Lemma module_signature_of_bytes_length e raw s :
  module_signature_of_bytes e raw = Some s -> length raw = 12%nat.
Proof.
  do 13 (destruct raw as [|? raw]; try discriminate). reflexivity.
Qed.

Lemma module_signature_bytes_length e s :
  length (module_signature_bytes e s) = 12%nat.
Proof.
  destruct s as [a h t sl kl [[p0 p1] p2] len], e; reflexivity.
Qed.

Lemma memcmp_eq_iff a b : memcmp_eq a b = true <-> a = b.
Proof.
  revert b. induction a as [|x a IH]; intros [|y b]; cbn; try easy.
  rewrite andb_true_iff, IH. split.
  - intros [E ->]. apply Byte.byte_dec_bl in E. now subst.
  - intros [= -> ->]. split; [now apply Byte.byte_dec_lb|reflexivity].
Qed.

Lemma MODULE_SIG_STRING_LEN_eq : MODULE_SIG_STRING_LEN = 28.
Proof. reflexivity. Qed.

Lemma MODULE_SIG_STRING_length : length MODULE_SIG_STRING = 28%nat.
Proof. reflexivity. Qed.

(** ** Reading from a stream *)

Lemma firstn_skipn_middle (pre mid post : list byte) :
  firstn (length mid) (skipn (length pre) (pre ++ mid ++ post)) = mid.
Proof.
  rewrite skipn_app, skipn_all, Nat.sub_diag. cbn [skipn app].
  rewrite firstn_app, firstn_all, Nat.sub_diag. cbn [firstn].
  apply app_nil_r.
Qed.

(** A read that lies inside the file returns exactly the bytes asked for. *)
Lemma fread_at data pre mid post n p :
  data = pre ++ mid ++ post ->
  p = Z.of_nat (length pre) ->
  n = Z.of_nat (length mid) ->
  fread n (mkFILE data p) = (mid, mkFILE data (p + n)).
Proof.
  intros -> -> ->. unfold fread. cbn [f_data f_pos].
  rewrite !Nat2Z.id, firstn_skipn_middle. reflexivity.
Qed.

(** A read that lies inside a prefix of the file does not see the rest. *)
Lemma firstn_skipn_prefix (body tail : list byte) n p :
  0 <= p -> 0 <= n -> p + n <= Z.of_nat (length body) ->
  firstn (Z.to_nat n) (skipn (Z.to_nat p) (body ++ tail)) =
    firstn (Z.to_nat n) (skipn (Z.to_nat p) body).
Proof.
  intros Hp Hn Hb. rewrite skipn_app, firstn_app.
  assert (L : length (skipn (Z.to_nat p) body) = (length body - Z.to_nat p)%nat)
    by apply length_skipn.
  replace (Z.to_nat n - length (skipn (Z.to_nat p) body))%nat with 0%nat by lia.
  cbn [firstn]. apply app_nil_r.
Qed.

(** Running a sequence: the first computation, then the rest. *)
Lemma run_bind {A B} (m : IO A) (k : A -> IO B) f a f' :
  m f = (a, f') -> bind m k f = k a f'.
Proof. intros E. unfold bind. now rewrite E. Qed.

Lemma fseek_end_0 data p :
  fseek_end 0 (mkFILE data p) = (tt, mkFILE data (Z.of_nat (length data))).
Proof.
  unfold fseek_end, file_length. cbn [f_data].
  rewrite (proj2 (Z.ltb_ge _ _)) by lia.
  now rewrite Z.add_0_r.
Qed.

Lemma fseek_set_to off data p :
  0 <= off -> fseek_set off (mkFILE data p) = (tt, mkFILE data off).
Proof.
  intros H. unfold fseek_set. now rewrite (proj2 (Z.ltb_ge _ _)) by lia.
Qed.

Lemma ftell_at data p : ftell (mkFILE data p) = (p, mkFILE data p).
Proof. reflexivity. Qed.

Section Facts.

Context {ssl : OpenSSL} {sys : System}.

(** ** The trailer parser on a file that ends in a header and the magic *)

Lemma pg_find_trailer e sig0 body raw s pos :
  module_signature_of_bytes e raw = Some s ->
  let data := body ++ raw ++ MODULE_SIG_STRING in
  let N := Z.of_nat (length data) in
  pg_find_module_signature e sig0 (mkFILE data pos) =
    ((found_offset N s, s), mkFILE data (N - MODULE_SIG_STRING_LEN)).
Proof.
  intros Hs data N.
  pose proof (module_signature_of_bytes_length _ _ _ Hs) as Lraw.
  assert (HN : N = Z.of_nat (length body) + 40).
  { unfold N, data. rewrite !length_app, Lraw, MODULE_SIG_STRING_length. lia. }
  unfold pg_find_module_signature.
  erewrite run_bind by apply fseek_end_0.
  erewrite run_bind by apply ftell_at.
  fold data; fold N.
  rewrite MODULE_SIG_STRING_LEN_eq. unfold sizeof_module_signature.
  rewrite (proj2 (Z.ltb_ge N _)) by lia.
  erewrite run_bind by (apply fseek_set_to; lia).
  erewrite run_bind;
    [ | apply (fread_at data (body ++ raw) MODULE_SIG_STRING [] 28 (N - 28));
        [ unfold data; now rewrite app_nil_r, app_assoc
        | rewrite length_app, Lraw; lia | reflexivity ] ].
  rewrite MODULE_SIG_STRING_length. change (Z.of_nat 28 =? 28) with true.
  replace (memcmp_eq MODULE_SIG_STRING MODULE_SIG_STRING) with true
    by (symmetry; now apply memcmp_eq_iff).
  cbn [negb].
  erewrite run_bind by (apply fseek_set_to; lia).
  erewrite run_bind;
    [ | apply (fread_at data body raw MODULE_SIG_STRING 12 (N - 28 - 12));
        [ reflexivity | lia | rewrite Lraw; reflexivity ] ].
  rewrite Hs. unfold found_offset, ret. rewrite MODULE_SIG_STRING_LEN_eq.
  unfold sizeof_module_signature.
  replace (N - 28 - 12 + 12) with (N - 28) by lia.
  destruct ((sig_len s =? 0) || (sig_len s >? N ÷ 2)); reflexivity.
Qed.

(** ** Extraction of the signature and the digest of the content *)

Lemma pg_extract_signature_at s off data content signature rest p :
  data = content ++ signature ++ rest ->
  off = Z.of_nat (length content) ->
  sig_len s = Z.of_nat (length signature) ->
  fst (pg_extract_signature s off (mkFILE data p)) =
    if malloc_ok alloc_sig_data (sig_len s) then Some signature else None.
Proof.
  intros Hd Ho Hl. unfold pg_extract_signature.
  destruct (malloc_ok alloc_sig_data (sig_len s)); [|reflexivity].
  cbn [negb].
  erewrite run_bind by (apply fseek_set_to; lia).
  erewrite run_bind by (apply (fread_at data content signature rest); assumption).
  rewrite Hl, Z.eqb_refl. reflexivity.
Qed.

(** The loop never runs out of the turns it is given. *)
Lemma hash_loop_fuel fuel : forall ctx rem f,
  (Z.to_nat rem < fuel)%nat ->
  fst (hash_loop fuel ctx rem f) <> LoopOutOfFuel.
Proof.
  induction fuel as [|fuel IH]; intros ctx rem f Hf; [lia|].
  cbn [hash_loop]. destruct (rem >? 0) eqn:Hr; [|discriminate].
  unfold bind, fread.
  set (buffer := firstn _ _).
  destruct (Z.of_nat (length buffer) =? 0) eqn:Hz; [discriminate|].
  destruct (EVP_DigestUpdate ctx buffer); [|discriminate].
  apply IH. apply Z.eqb_neq in Hz. lia.
Qed.

(** The loop only sees the bytes before [pos + bytes_remaining]. *)
Lemma hash_loop_prefix fuel body tail : forall ctx rem p,
  0 <= p -> p + rem <= Z.of_nat (length body) ->
  fst (hash_loop fuel ctx rem (mkFILE (body ++ tail) p)) =
    fst (hash_loop fuel ctx rem (mkFILE body p)).
Proof.
  induction fuel as [|fuel IH]; intros ctx rem p Hp Hb; [reflexivity|].
  cbn [hash_loop]. destruct (rem >? 0) eqn:Hr; [|reflexivity].
  apply Z.gtb_lt in Hr. unfold bind, fread. cbn [f_data f_pos].
  set (to_read := if rem >? sizeof_buffer then sizeof_buffer else rem).
  assert (Ht : 0 <= to_read <= rem).
  { unfold to_read, sizeof_buffer. destruct (Z.gtb_spec rem 8192); lia. }
  rewrite firstn_skipn_prefix by lia.
  set (buffer := firstn _ _).
  assert (Lb : Z.of_nat (length buffer) <= to_read).
  { unfold buffer. rewrite length_firstn. lia. }
  destruct (Z.of_nat (length buffer) =? 0); [reflexivity|].
  destruct (EVP_DigestUpdate ctx buffer); [|reflexivity].
  apply IH; lia.
Qed.

(** The digest covers the bytes before [content_end] and only them. *)
Lemma pg_calculate_module_hash_prefix hash_algo content rest p :
  fst (pg_calculate_module_hash (Z.of_nat (length content)) hash_algo
         (mkFILE (content ++ rest) p)) =
    digest_of_content hash_algo content.
Proof.
  unfold digest_of_content, pg_calculate_module_hash, fopen.
  destruct EVP_MD_CTX_new as [ctx|]; [|reflexivity].
  destruct (EVP_DigestInit_ex ctx hash_algo) as [ctx'|]; [|reflexivity].
  destruct (malloc_ok alloc_hash (EVP_MD_size hash_algo)); [|reflexivity].
  cbn [negb].
  assert (Seek : forall (k : IO (option (list byte))) d q,
             (fseek_set 0 ;;; k) (mkFILE d q) = k (mkFILE d 0))
    by (intros; apply (run_bind (fseek_set 0) (fun _ => k) _ tt), fseek_set_to; lia).
  rewrite !Seek.
  pose proof (hash_loop_prefix (S (Z.to_nat (Z.of_nat (length content))))
                content rest ctx' (Z.of_nat (length content)) 0) as E.
  unfold bind.
  destruct (hash_loop _ _ _ (mkFILE (content ++ rest) 0)) as [o1 f1].
  destruct (hash_loop _ _ _ (mkFILE content 0)) as [o2 f2].
  cbn [fst] in E. rewrite E by lia. destruct o2; reflexivity.
Qed.

Lemma pg_extract_signature_data s off f :
  f_data (snd (pg_extract_signature s off f)) = f_data f.
Proof.
  unfold pg_extract_signature, bind, fseek_set, fread, ret.
  destruct (malloc_ok alloc_sig_data (sig_len s)); cbn [negb]; [|reflexivity].
  destruct (off <? 0); cbn [f_data f_pos];
    match goal with |- context [negb ?c] => destruct c end; reflexivity.
Qed.

(** ** The verifier on a file that ends in a header and the magic *)

Lemma found_offset_nonneg N s :
  0 <= sig_len s -> 0 <= found_offset N s ->
  1 <= sig_len s <= (N ÷ 2) /\
  found_offset N s =
    N - MODULE_SIG_STRING_LEN - sizeof_module_signature - sig_len s.
Proof.
  unfold found_offset. intros H0 H.
  destruct (Z.eqb_spec (sig_len s) 0); cbn [orb] in *; [lia|].
  destruct (Z.gtb_spec (sig_len s) (N ÷ 2)); [lia|]. lia.
Qed.

Lemma found_offset_signed N s :
  1 <= sig_len s <= (N ÷ 2) ->
  found_offset N s =
    N - MODULE_SIG_STRING_LEN - sizeof_module_signature - sig_len s.
Proof.
  unfold found_offset. intros H.
  destruct (Z.eqb_spec (sig_len s) 0); cbn [orb]; [lia|].
  destruct (Z.gtb_spec (sig_len s) (N ÷ 2)); [lia|]. reflexivity.
Qed.

Lemma trailer_length (body raw : list byte) :
  length raw = 12%nat ->
  Z.of_nat (length (body ++ raw ++ MODULE_SIG_STRING)) =
    Z.of_nat (length body) + 40.
Proof.
  intros L. rewrite !length_app, L, MODULE_SIG_STRING_length. lia.
Qed.

Lemma verify_trailer path g body raw s :
  malloc_ok alloc_result sizeof_result = true ->
  file_contents path = Some (body ++ raw ++ MODULE_SIG_STRING) ->
  module_signature_of_bytes host_byte_order raw = Some s ->
  let off := found_offset (Z.of_nat (length (body ++ raw ++ MODULE_SIG_STRING))) s in
  pg_verify_module_signature path g =
    Some (if off <? 0 then no_signature_result
          else verdict g (firstn (Z.to_nat off) body)
                 (skipn (Z.to_nat off) body) s).
Proof.
  intros Hm Hf Hs off. unfold pg_verify_module_signature.
  rewrite Hm, Hf. cbn [negb]. unfold fopen.
  rewrite (pg_find_trailer _ _ body raw s 0 Hs). fold off.
  destruct (Z.ltb_spec off 0) as [Neg|Pos]; [reflexivity|].
  destruct (module_signature_bytes_of_bytes _ _ _ Hs) as [_ R].
  pose proof (module_signature_of_bytes_length _ _ _ Hs) as Lraw.
  destruct (found_offset_nonneg _ s (proj1 R) Pos) as [Hlen Hoff].
  fold off in Hoff. rewrite (trailer_length body raw Lraw) in Hoff, Hlen.
  rewrite MODULE_SIG_STRING_LEN_eq in Hoff. unfold sizeof_module_signature in Hoff.
  set (content := firstn (Z.to_nat off) body).
  set (signature := skipn (Z.to_nat off) body).
  assert (Hb : body = content ++ signature)
    by (symmetry; apply firstn_skipn).
  assert (Lc : Z.of_nat (length content) = off)
    by (unfold content; rewrite length_firstn; lia).
  assert (Ls : sig_len s = Z.of_nat (length signature))
    by (unfold signature; rewrite length_skipn; lia).
  set (data := body ++ raw ++ MODULE_SIG_STRING).
  assert (Hd : data = content ++ signature ++ raw ++ MODULE_SIG_STRING)
    by (unfold data; rewrite Hb at 1; now rewrite <- app_assoc).
  set (f0 := mkFILE data _).
  pose proof (pg_extract_signature_at s off data content signature
                (raw ++ MODULE_SIG_STRING) (f_pos f0) Hd (eq_sym Lc) Ls) as Ex.
  pose proof (pg_extract_signature_data s off f0) as Ed.
  change (mkFILE data (f_pos f0)) with f0 in Ex.
  destruct (pg_extract_signature s off f0) as [o f1].
  cbn [fst snd] in Ex, Ed. subst o. unfold verdict. rewrite Lc.
  destruct (malloc_ok alloc_sig_data (sig_len s)); [|reflexivity].
  destruct (hash_algorithm_of (hash s)) as [[hash_algo name]|]; [|reflexivity].
  destruct f1 as [d1 p1]. cbn [f_data] in Ed. subst d1.
  change (f_data f0) with data.
  pose proof (pg_calculate_module_hash_prefix hash_algo content
                (signature ++ raw ++ MODULE_SIG_STRING) p1) as Eh.
  rewrite Lc, <- Hd in Eh.
  destruct (pg_calculate_module_hash off hash_algo (mkFILE data p1)) as [h f2].
  cbn [fst] in Eh. subst h.
  destruct (digest_of_content hash_algo content) as [module_hash|]; [|reflexivity].
  destruct (try_certificates _ _ _ _) as [r v]. destruct (v =? 0); reflexivity.
Qed.

(** ** The trailer parser *)

(** No integer operation of the parser leaves the range of its C type:
    the [size_t] sum and the [long] differences. *)
Lemma find_arith_in_range N s :
  MODULE_SIG_STRING_LEN + sizeof_module_signature <= N < 2 ^ 63 ->
  0 <= sig_len s < 2 ^ 32 ->
  0 <= N - MODULE_SIG_STRING_LEN - sizeof_module_signature < 2 ^ 63 /\
  0 <= N ÷ 2 < 2 ^ 63 /\
  - 2 ^ 63 <= N - MODULE_SIG_STRING_LEN - sizeof_module_signature - sig_len s
    < 2 ^ 63.
Proof.
  rewrite MODULE_SIG_STRING_LEN_eq. unfold sizeof_module_signature.
  intros HN Hs. rewrite Z.quot_div_nonneg by lia.
  change (2 ^ 63) with 9223372036854775808 in *.
  change (2 ^ 32) with 4294967296 in *.
  repeat split; try lia; by_div_mod.
Qed.

(** C1, as the program has it.  For a file made of content, signature,
    signer name, key identifier, the 12-byte header in the byte order of
    the host and the magic string, whose header holds the length of the
    signature, with [1 <= sig_len <= N / 2]: the parser succeeds, reads the
    header back, and returns the offset [N - 28 - 12 - sig_len], which is
    the length of the content plus the lengths of the signer name and of
    the key identifier.  It is the length of the content when these two
    are empty. *)
Theorem trailer_round_trip e sig0 pos content signature signer_name key_id s :
  sig_len s = Z.of_nat (length signature) ->
  sig_len s < 2 ^ 32 ->
  1 <= sig_len s <=
    Z.of_nat (length (signed_file e content signature signer_name key_id s)) ÷ 2 ->
  fst (pg_find_module_signature e sig0
         (mkFILE (signed_file e content signature signer_name key_id s) pos)) =
    (Z.of_nat (length content) + Z.of_nat (length signer_name)
       + Z.of_nat (length key_id), s) /\
  (Z.of_nat (length content) + Z.of_nat (length signer_name)
     + Z.of_nat (length key_id))
    + sig_len s + sizeof_module_signature + MODULE_SIG_STRING_LEN =
    Z.of_nat (length (signed_file e content signature signer_name key_id s)).
Proof.
  intros Hlen Hmax Hval.
  assert (Hs : module_signature_of_bytes e (module_signature_bytes e s) = Some s)
    by (apply module_signature_of_bytes_image; lia).
  unfold signed_file, with_trailer in *.
  rewrite (pg_find_trailer e sig0 _ _ s pos Hs). cbn [fst].
  rewrite (found_offset_signed _ s Hval).
  rewrite (trailer_length _ _ (module_signature_bytes_length e s)).
  rewrite MODULE_SIG_STRING_LEN_eq. unfold sizeof_module_signature.
  rewrite !length_app. split; [f_equal|]; lia.
Qed.

(** The result for a file made of content, signature, header and magic. *)
Lemma verify_signed path g content signature raw s :
  malloc_ok alloc_result sizeof_result = true ->
  file_contents path =
    Some ((content ++ signature) ++ raw ++ MODULE_SIG_STRING) ->
  module_signature_of_bytes host_byte_order raw = Some s ->
  sig_len s = Z.of_nat (length signature) ->
  1 <= sig_len s <=
    Z.of_nat (length ((content ++ signature) ++ raw ++ MODULE_SIG_STRING)) ÷ 2 ->
  pg_verify_module_signature path g = Some (verdict g content signature s).
Proof.
  intros Hm Hf Hs Hl Hv.
  rewrite (verify_trailer path g _ raw s Hm Hf Hs).
  rewrite (found_offset_signed _ s Hv).
  rewrite (trailer_length _ raw (module_signature_of_bytes_length _ _ _ Hs)).
  rewrite MODULE_SIG_STRING_LEN_eq. unfold sizeof_module_signature.
  rewrite length_app.
  replace (_ - 28 - 12 - sig_len s) with (Z.of_nat (length content)) by lia.
  rewrite (proj2 (Z.ltb_ge _ _)) by lia.
  rewrite Nat2Z.id, firstn_app, firstn_all, skipn_app, skipn_all, Nat.sub_diag.
  cbn [firstn skipn app]. now rewrite app_nil_r.
Qed.

(** The verifier reads two fields of the header, [hash] and [sig_len]:
    files that differ in the other bytes of the header get the same
    result. *)
Lemma verify_reads_hash_and_sig_len path path' g body raw raw' s s' :
  file_contents path = Some (body ++ raw ++ MODULE_SIG_STRING) ->
  file_contents path' = Some (body ++ raw' ++ MODULE_SIG_STRING) ->
  module_signature_of_bytes host_byte_order raw = Some s ->
  module_signature_of_bytes host_byte_order raw' = Some s' ->
  hash s' = hash s ->
  sig_len s' = sig_len s ->
  pg_verify_module_signature path' g = pg_verify_module_signature path g.
Proof.
  intros Hf Hf' Hs Hs' Hh Hl.
  destruct (malloc_ok alloc_result sizeof_result) eqn:Hm.
  - rewrite (verify_trailer path g body raw s Hm Hf Hs).
    rewrite (verify_trailer path' g body raw' s' Hm Hf' Hs').
    rewrite !trailer_length
      by eauto using module_signature_of_bytes_length.
    unfold found_offset, verdict. rewrite Hh, Hl. reflexivity.
  - unfold pg_verify_module_signature. now rewrite Hm.
Qed.

(** ** Error kinds *)

(** C2, as the program has it.  The parser has one failure value, -1, and
    the verifier reports it as the absence of a signature: a file that ends
    in the magic string and whose header holds a [sig_len] that is zero,
    above [N / 2], or larger than what precedes the header, is reported
    with [has_signature = 0], [valid = 0] and the message of the
    no-signature outcome, when [strdup] finds memory for that message. *)
Theorem oversized_sig_len_reported_as_no_signature path g body s :
  malloc_ok alloc_result sizeof_result = true ->
  strdup_ok dup_error_message "No signature found in module" = true ->
  file_contents path = Some (with_trailer host_byte_order body s) ->
  0 <= sig_len s < 2 ^ 32 ->
  sig_len s = 0 \/
  sig_len s > Z.of_nat (length (with_trailer host_byte_order body s)) ÷ 2 \/
  Z.of_nat (length (with_trailer host_byte_order body s))
    - MODULE_SIG_STRING_LEN - sizeof_module_signature - sig_len s < 0 ->
  exists r,
    pg_verify_module_signature path g = Some r /\
    has_signature r = 0 /\ valid r = 0 /\
    error_message r = Some "No signature found in module"%string.
Proof.
  intros Hm Hdup Hf R Hbad.
  pose proof (module_signature_of_bytes_image host_byte_order s R) as Hs.
  unfold with_trailer in *.
  rewrite (verify_trailer path g body _ s Hm Hf Hs).
  set (N := Z.of_nat (length _)) in *.
  assert (Neg : found_offset N s < 0).
  { unfold found_offset.
    destruct (Z.eqb_spec (sig_len s) 0); cbn [orb]; [lia|].
    destruct (Z.gtb_spec (sig_len s) (N ÷ 2)); lia. }
  rewrite (proj2 (Z.ltb_lt _ _) Neg).
  eexists. split; [reflexivity|]. repeat split.
  cbn. unfold strdup. now rewrite Hdup.
Qed.

(** ** The result structure *)

(** The certificate loop either leaves the result as it is, or stores the
    verdict, the signer and the algorithm and nothing else. *)
Lemma try_certificates_result module_hash sig_data cache result :
  (try_certificates module_hash sig_data cache result = (result, 0)) \/
  (exists entry,
     In entry cache /\
     try_certificates module_hash sig_data cache result =
       (set_verified (fingerprint entry) result, 1)).
Proof.
  induction cache as [|entry next IH]; cbn [try_certificates]; [now left|].
  destruct (negb _).
  - right. exists entry. split; [now left|reflexivity].
  - destruct IH as [IH|(e' & Hin & IH)]; [now left|].
    right. exists e'. split; [now right|exact IH].
Qed.

Ltac verify_cases H :=
  unfold pg_verify_module_signature in H;
  repeat match type of H with
         | context [match ?x with _ => _ end] => destruct x eqn:?
         end;
  try discriminate H;
  injection H as <-.

Ltac loop_cases :=
  match goal with
  | E : try_certificates ?h ?d ?c ?r = _ |- _ =>
      let e := fresh "entry" in
      let Hin := fresh "Hin" in
      let E' := fresh "E" in
      destruct (try_certificates_result h d c r) as [E'|(e & Hin & E')];
      rewrite E' in E; injection E as <- <-
  end.

(** Closes a goal when the message in [H] cannot be the one the result
    was given, whether [strdup] found memory for it or not. *)
Ltac other_message H :=
  cbn in H; unfold strdup in H;
  repeat match type of H with
         | context [strdup_ok ?a ?b] => destruct (strdup_ok a b)
         end;
  discriminate H.

(** C4, as the program has it.  The result is zeroed when it is allocated
    and the offset is only stored once a signature is found: a result with
    [has_signature = 0] has [valid = 0], [signature_offset = 0] and
    [signature_size = 0]. *)
Theorem no_signature_result_fields path g r :
  pg_verify_module_signature path g = Some r ->
  has_signature r = 0 ->
  valid r = 0 /\ signature_offset r = 0 /\ signature_size r = 0.
Proof.
  intros H. verify_cases H; try loop_cases; cbn; intros; try discriminate;
    repeat split.
Qed.

(** X22.  In every result the program returns, [valid] is 0 or 1; when
    it is 1 the module has a signature and there is no error message; an
    error message is only present when [valid] is 0.  When [strdup] never
    fails, a valid result also names the signer, the algorithm and the
    hash algorithm, and every result that is not valid carries an error
    message. *)
Theorem result_consistency path g r :
  pg_verify_module_signature path g = Some r ->
  (valid r = 0 \/ valid r = 1) /\
  (valid r = 1 -> has_signature r = 1 /\ error_message r = None) /\
  (error_message r <> None -> valid r = 0) /\
  ((forall site s, strdup_ok site s = true) ->
   (valid r = 1 ->
    signer r <> None /\ algorithm r <> None /\ hash_algorithm r <> None) /\
   (valid r = 0 -> error_message r <> None)).
Proof.
  intros H. verify_cases H; try loop_cases; cbn; unfold strdup;
    (split; [auto|]);
    repeat (split || intro);
    repeat match goal with
           | All : forall site s, strdup_ok site s = true,
             E : context [strdup_ok ?a ?b] |- _ => rewrite (All a b) in E
           end;
    try discriminate; try reflexivity; try congruence.
Qed.

(** When [strdup] finds no memory, no result holds a string: the result
    is still returned, valid or not. *)
Lemma no_strings_without_strdup path g r :
  (forall site s, strdup_ok site s = false) ->
  pg_verify_module_signature path g = Some r ->
  error_message r = None /\ signer r = None /\ algorithm r = None /\
  hash_algorithm r = None.
Proof.
  intros No H. verify_cases H; try loop_cases; cbn; unfold strdup;
    rewrite ?No; repeat split.
Qed.

(** ** The empty cache *)

(** C6, as the program has it.  The verifier has no message for an empty
    cache: for a module with a trailer the parser accepts, when the steps
    before the certificate loop succeed (the signature buffer is
    allocated, the hash identifier is known, the digest is computed) and
    [strdup] finds memory for the message, the result against an empty
    cache has [has_signature = 1], [valid = 0] and the message of a failed
    verification. *)
Theorem empty_cache_message path g content signature s hash_algo name
  module_hash :
  malloc_ok alloc_result sizeof_result = true ->
  file_contents path =
    Some (with_trailer host_byte_order (content ++ signature) s) ->
  sig_len s = Z.of_nat (length signature) ->
  sig_len s < 2 ^ 32 ->
  1 <= sig_len s <=
    Z.of_nat (length (with_trailer host_byte_order (content ++ signature) s)) ÷ 2 ->
  malloc_ok alloc_sig_data (sig_len s) = true ->
  hash_algorithm_of (hash s) = Some (hash_algo, name) ->
  digest_of_content hash_algo content = Some module_hash ->
  strdup_ok dup_error_message
    "Signature verification failed against all certificates" = true ->
  cert_cache g = [] ->
  exists r,
    pg_verify_module_signature path g = Some r /\
    has_signature r = 1 /\ valid r = 0 /\
    error_message r =
      Some "Signature verification failed against all certificates"%string.
Proof.
  intros Hm Hf Hl Hmax Hv Hsig Hh Hd Hdup Hc.
  assert (Hs : module_signature_of_bytes host_byte_order
                 (module_signature_bytes host_byte_order s) = Some s)
    by (apply module_signature_of_bytes_image; lia).
  unfold with_trailer in *.
  rewrite (verify_signed path g content signature _ s Hm Hf Hs Hl Hv).
  unfold verdict. rewrite Hsig, Hh, Hd, Hc. cbn.
  eexists. split; [reflexivity|]. repeat split.
  cbn. unfold strdup. now rewrite Hdup.
Qed.

(** ** Header bytes the verifier does not read *)

Lemma no_public_key_algorithm_message path g r :
  pg_verify_module_signature path g = Some r ->
  error_message r <> Some "Unknown public-key algorithm"%string.
Proof.
  intros H. verify_cases H; try loop_cases; cbn; unfold strdup;
    try match goal with
        | |- context [strdup_ok ?a ?b] => destruct (strdup_ok a b)
        end;
    discriminate.
Qed.

(** C7, as the program has it.  The [algo] byte is not read ("assume RSA
    for now"): a module gets the result it would get with any other [algo]
    byte, zero included, and no result carries the message "Unknown
    public-key algorithm". *)
Theorem algo_byte_not_consulted path path' g body s a :
  file_contents path = Some (with_trailer host_byte_order body s) ->
  file_contents path' =
    Some (with_trailer host_byte_order body (with_algo a s)) ->
  pg_verify_module_signature path' g = pg_verify_module_signature path g /\
  forall r, pg_verify_module_signature path' g = Some r ->
            error_message r <> Some "Unknown public-key algorithm"%string.
Proof.
  intros Hf Hf'. split; [|apply no_public_key_algorithm_message].
  exact (verify_reads_hash_and_sig_len path path' g body _ _ _ _ Hf Hf'
           (module_signature_of_bytes_image_mod host_byte_order s)
           (module_signature_of_bytes_image_mod host_byte_order (with_algo a s))
           eq_refl eq_refl).
Qed.

(** C8, as the program has it.  The three padding bytes are not read: a
    module gets the result it would get with any other padding, zero
    included. *)
Theorem padding_not_consulted path path' g body s p :
  file_contents path = Some (with_trailer host_byte_order body s) ->
  file_contents path' =
    Some (with_trailer host_byte_order body (with_pad p s)) ->
  pg_verify_module_signature path' g = pg_verify_module_signature path g.
Proof.
  intros Hf Hf'.
  exact (verify_reads_hash_and_sig_len path path' g body _ _ _ _ Hf Hf'
           (module_signature_of_bytes_image_mod host_byte_order s)
           (module_signature_of_bytes_image_mod host_byte_order (with_pad p s))
           eq_refl eq_refl).
Qed.

(** ** The certificate cache *)

(** A successful load puts one new entry at the head of the cache; the
    entry is determined by the contents of the file. *)
Lemma pg_load_certificate_success cert_path g g' :
  pg_load_certificate cert_path g = (1, g') ->
  exists entry,
    cert_cache g' = entry :: cert_cache g /\
    forall path' h,
      file_contents path' = file_contents cert_path ->
      pg_load_certificate path' h =
        (1, mk_globals (entry :: cert_cache h)
              (openssl_initialized (snd (pg_init_openssl h)))).
Proof.
  unfold pg_load_certificate.
  assert (Init : forall h, exists h',
             pg_init_openssl h = (1, h') /\ cert_cache h' = cert_cache h).
  { intros h. unfold pg_init_openssl. destruct (negb _); eexists; split; reflexivity. }
  destruct (Init g) as (g0 & -> & Hc). cbn [Z.eqb].
  destruct (file_contents cert_path) as [cert_file|] eqn:Hf; [|discriminate].
  set (parsed := match PEM_read_X509 cert_file with
                 | Some c => Some c
                 | None => d2i_X509_fp cert_file
                 end).
  destruct parsed as [c|] eqn:Hp; [|discriminate].
  destruct (malloc_ok alloc_cache_entry 24) eqn:Hm; [|discriminate].
  cbn [negb]. intros [= <-]. eexists. split; [cbn; now rewrite Hc|].
  intros path' h Hf'. destruct (Init h) as (h0 & Eh & Hc').
  rewrite Eh, Hf'. cbn [Z.eqb snd]. fold parsed. rewrite Hp.
  now rewrite Hc'.
Qed.

Lemma try_certificates_head module_hash sig_data entry rest result r v :
  valid result = 0 ->
  try_certificates module_hash sig_data [entry] result = (r, v) ->
  valid r = 1 ->
  try_certificates module_hash sig_data (entry :: rest) result = (r, v) /\
  v = 1 /\ signer r = strdup dup_signer (fingerprint entry).
Proof.
  cbn [try_certificates]. intros H0.
  destruct (negb _); intros [= <- <-]; cbn; intros Hv.
  - repeat split.
  - congruence.
Qed.

(** A certificate that verifies at the head of the cache decides the
    result; the entries behind it are not examined. *)
Lemma head_of_cache_decides module_path entry r :
  pg_verify_module_signature module_path (mk_globals [entry] 1) = Some r ->
  valid r = 1 ->
  forall rest init,
    pg_verify_module_signature module_path (mk_globals (entry :: rest) init)
      = Some r /\
    signer r = strdup dup_signer (fingerprint entry).
Proof.
  unfold pg_verify_module_signature. cbn [cert_cache].
  intros H Hv rest init.
  destruct (negb (malloc_ok alloc_result sizeof_result)); [discriminate|].
  destruct (file_contents module_path) as [contents|];
    [|injection H as <-; discriminate Hv].
  destruct (pg_find_module_signature _ _ _) as [[off s] f].
  destruct (off <? 0); [injection H as <-; discriminate Hv|].
  destruct (pg_extract_signature _ _ _) as [[sig_data|] f'];
    [|injection H as <-; discriminate Hv].
  destruct (hash_algorithm_of _) as [[hash_algo name]|];
    [|injection H as <-; discriminate Hv].
  destruct (pg_calculate_module_hash _ _ _) as [[module_hash|] f''];
    [|injection H as <-; discriminate Hv].
  set (base := set_hash_algorithm name _) in *.
  assert (Hb : valid base = 0) by reflexivity.
  destruct (try_certificates module_hash sig_data [entry] base) as [r1 v1] eqn:E.
  assert (Hv1 : valid r1 = 1)
    by (destruct (v1 =? 0); injection H as <-; exact Hv).
  destruct (try_certificates_head _ _ _ rest base r1 v1 Hb E Hv1)
    as (E' & -> & Hs).
  rewrite E'. cbn [Z.eqb] in *. injection H as <-. now split.
Qed.

(** C3, as the program has it.  A load puts the new entry at the head of
    the list and the verifier walks the list from its head: after loading
    A and then B the cache is [B; A; ...], and whenever B verifies a module
    the result is the one B alone gives, whose signer is the copy [strdup]
    makes of B's fingerprint: B's fingerprint, when [strdup] finds memory
    for it.  A is not examined.  The most recently loaded matching
    certificate wins. *)
Theorem most_recently_loaded_certificate_wins path_A path_B module_path
  g0 g1 g2 :
  pg_load_certificate path_A g0 = (1, g1) ->
  pg_load_certificate path_B g1 = (1, g2) ->
  exists entry_A entry_B,
    cert_cache g1 = entry_A :: cert_cache g0 /\
    cert_cache g2 = entry_B :: entry_A :: cert_cache g0 /\
    forall r,
      pg_verify_module_signature module_path (mk_globals [entry_B] 1) = Some r ->
      valid r = 1 ->
      pg_verify_module_signature module_path g2 = Some r /\
      signer r = strdup dup_signer (fingerprint entry_B) /\
      (strdup_ok dup_signer (fingerprint entry_B) = true ->
       signer r = Some (fingerprint entry_B)).
Proof.
  intros HA HB.
  destruct (pg_load_certificate_success _ _ _ HA) as (eA & HcA & _).
  destruct (pg_load_certificate_success _ _ _ HB) as (eB & HcB & _).
  exists eA, eB. rewrite HcA in HcB.
  split; [exact HcA|]. split; [exact HcB|].
  intros r Hr Hv. destruct g2 as [cache init]. cbn in HcB. subst cache.
  destruct (head_of_cache_decides module_path eB r Hr Hv (eA :: cert_cache g0)
              init) as [Hg Hs].
  split; [exact Hg|]. split; [exact Hs|].
  intros Hdup. rewrite Hs. unfold strdup. now rewrite Hdup.
Qed.


(** ** The fingerprint buffer *)

Lemma stores_at_in_bounds size off cs :
  0 <= off -> off + Z.of_nat (length cs) <= size ->
  stores_in_bounds size (stores_at off cs) = true.
Proof.
  revert off. induction cs as [|c cs IH]; intros off H0 H; [reflexivity|].
  cbn [length] in H. cbn -[Z.of_nat]. unfold store_in_bounds at 1. cbn [fst].
  rewrite (proj2 (Z.leb_le _ _) H0), (proj2 (Z.ltb_lt _ _)) by lia.
  apply IH; lia.
Qed.

Lemma fingerprint_loop_in_bounds size md : forall i,
  0 <= i -> (i + Z.of_nat (length md)) * 2 + 1 <= size ->
  stores_in_bounds size (fingerprint_loop i md) = true.
Proof.
  induction md as [|b md IH]; intros i H0 H; [reflexivity|].
  cbn [length] in H. cbn [fingerprint_loop]. unfold stores_in_bounds.
  rewrite forallb_app. apply andb_true_iff. split.
  - apply stores_at_in_bounds; cbn [length sprintf_02x]; lia.
  - apply IH; lia.
Qed.

Lemma hex_digit_not_NUL n : Ascii.eqb (hex_digit n) NUL = false.
Proof.
  unfold hex_digit. generalize (Z.to_nat n) as k. intros k.
  do 17 (destruct k as [|k]; [reflexivity|]).
  reflexivity.
Qed.

(** The stores of the loop from index [i] on, and the final store, leave
    the memory below offset [2 * i] as it was. *)
Lemma fingerprint_loop_below md : forall i mem a,
  a < i * 2 ->
  fold_left apply_store
    (fingerprint_loop i md ++ [((i + Z.of_nat (length md)) * 2, NUL)]) mem a
  = mem a.
Proof.
  induction md as [|b md IH]; intros i mem a Ha.
  - cbn. unfold apply_store. cbn [fst snd].
    now rewrite (proj2 (Z.eqb_neq _ _)) by lia.
  - cbn [fingerprint_loop length]. rewrite <- app_assoc, fold_left_app.
    replace (i + Z.of_nat (S (length md))) with (i + 1 + Z.of_nat (length md))
      by lia.
    rewrite IH by lia. cbn. unfold apply_store. cbn [fst snd].
    now rewrite !(proj2 (Z.eqb_neq _ _)) by lia.
Qed.

(** What is read back from the buffer is the hexadecimal text of the
    digest. *)
Lemma c_string_fingerprint_loop md : forall i mem fuel,
  (2 * length md + 1 <= fuel)%nat ->
  c_string fuel
    (fold_left apply_store
       (fingerprint_loop i md ++ [((i + Z.of_nat (length md)) * 2, NUL)]) mem)
    (i * 2)
  = hex_string md.
Proof.
  induction md as [|b md IH]; intros i mem fuel Hf.
  - destruct fuel as [|fuel]; [cbn in Hf; lia|].
    cbn. unfold apply_store. cbn [fst snd].
    replace ((i + 0) * 2) with (i * 2) by lia. now rewrite Z.eqb_refl.
  - cbn [length] in Hf.
    destruct fuel as [|[|fuel]]; [lia|lia|].
    cbn [fingerprint_loop length]. rewrite <- app_assoc, fold_left_app.
    replace (i + Z.of_nat (S (length md))) with (i + 1 + Z.of_nat (length md))
      by lia.
    set (mem3 := fold_left apply_store (stores_at (i * 2) (sprintf_02x b)) mem).
    assert (H0 : mem3 (i * 2) = hex_digit (u8 b / 16)).
    { unfold mem3. cbn. unfold apply_store. cbn [fst snd].
      rewrite !(proj2 (Z.eqb_neq _ _)) by lia. now rewrite Z.eqb_refl. }
    assert (H1 : mem3 (i * 2 + 1) = hex_digit (u8 b mod 16)).
    { unfold mem3. cbn. unfold apply_store. cbn [fst snd].
      rewrite !(proj2 (Z.eqb_neq _ _)) by lia. now rewrite Z.eqb_refl. }
    cbn [c_string].
    rewrite !fingerprint_loop_below by lia.
    rewrite H0, H1, !hex_digit_not_NUL.
    replace (i * 2 + 1 + 1) with ((i + 1) * 2) by lia.
    rewrite IH by lia. reflexivity.
Qed.

(** The fingerprint of an entry is the lowercase hexadecimal text of the
    digest of its certificate, or ["unknown"]. *)
Lemma fingerprint_of_digest md : fingerprint_of (Some md) = hex_string md.
Proof.
  unfold fingerprint_of, fingerprint_stores.
  apply (c_string_fingerprint_loop md 0).
  rewrite length_app. cbn [length].
  assert (L : forall i, length (fingerprint_loop i md) = (3 * length md)%nat).
  { induction md as [|b md IH]; intros i; [reflexivity|].
    cbn [fingerprint_loop length]. rewrite length_app, IH. cbn. lia. }
  rewrite L. lia.
Qed.

Lemma fingerprint_of_no_digest : fingerprint_of None = "unknown"%string.
Proof. reflexivity. Qed.

(** A buffer of 65 bytes holds every store; one of [fingerprint_size]
    bytes does not hold the last one. *)
Lemma fingerprint_stores_fit_65 c md :
  X509_digest c EVP_sha256 = Some md ->
  stores_in_bounds (fingerprint_size + 1) (fingerprint_stores (Some md)) = true.
Proof.
  intros H. apply X509_digest_sha256_len in H.
  unfold fingerprint_stores, stores_in_bounds. rewrite forallb_app, H.
  apply andb_true_iff. split; [|reflexivity].
  apply fingerprint_loop_in_bounds; rewrite ?H; cbn; lia.
Qed.

Lemma fingerprint_unknown_in_bounds :
  stores_in_bounds fingerprint_size (fingerprint_stores None) = true.
Proof. reflexivity. Qed.

(** C10 fails on the program.  For a certificate whose SHA-256 digest is
    computed, the last store of the last [sprintf] and the store of
    [fingerprint[md_len * 2]] are at offset 64 of the 64-byte buffer: the
    stores are not all in bounds. *)
Theorem fingerprint_store_out_of_bounds c md :
  X509_digest c EVP_sha256 = Some md ->
  In (fingerprint_size, NUL) (fingerprint_stores (Some md)) /\
  stores_in_bounds fingerprint_size (fingerprint_stores (Some md)) = false.
Proof.
  intros H. apply X509_digest_sha256_len in H.
  unfold fingerprint_stores, stores_in_bounds. rewrite H. split.
  - apply in_or_app. right. now left.
  - rewrite forallb_app. apply andb_false_iff. now right.
Qed.

(** * Further properties of the program *)

(** ** The parser on any file *)

Lemma file_split (data : list byte) :
  (40 <= length data)%nat ->
  exists body raw tail,
    data = body ++ raw ++ tail /\
    length raw = 12%nat /\ length tail = 28%nat /\
    tail = skipn (length data - 28) data.
Proof.
  intros H.
  exists (firstn (length data - 40) data),
         (firstn 12 (skipn (length data - 40) data)),
         (skipn (length data - 28) data).
  repeat split.
  - rewrite <- (firstn_skipn (length data - 40) data) at 1. f_equal.
    rewrite <- (firstn_skipn 12 (skipn (length data - 40) data)) at 1.
    f_equal. rewrite skipn_skipn. f_equal. lia.
  - rewrite length_firstn, length_skipn. lia.
  - rewrite length_skipn. lia.
Qed.

Lemma module_signature_of_bytes_total e raw :
  length raw = 12%nat -> exists s, module_signature_of_bytes e raw = Some s.
Proof.
  do 13 (destruct raw as [|? raw]; try discriminate). intros _.
  eexists. reflexivity.
Qed.

(** A file of fewer than 40 bytes is left after one seek. *)
Lemma pg_find_short e sig0 data p :
  Z.of_nat (length data) < MODULE_SIG_STRING_LEN + sizeof_module_signature ->
  fst (pg_find_module_signature e sig0 (mkFILE data p)) = (-1, sig0).
Proof.
  intros H. unfold pg_find_module_signature.
  erewrite run_bind by apply fseek_end_0.
  erewrite run_bind by apply ftell_at.
  now rewrite (proj2 (Z.ltb_lt _ _) H).
Qed.

(** A file of at least 40 bytes: the last 28 are compared with the magic
    string and the 12 before them are read as the header. *)
Lemma pg_find_shape e sig0 body raw tail p :
  length raw = 12%nat -> length tail = 28%nat ->
  fst (pg_find_module_signature e sig0 (mkFILE (body ++ raw ++ tail) p)) =
    if memcmp_eq tail MODULE_SIG_STRING then
      match module_signature_of_bytes e raw with
      | Some s =>
          (found_offset (Z.of_nat (length (body ++ raw ++ tail))) s, s)
      | None => (-1, sig0)
      end
    else (-1, sig0).
Proof.
  intros Lraw Ltail. set (data := body ++ raw ++ tail).
  set (N := Z.of_nat (length data)).
  assert (HN : N = Z.of_nat (length body) + 40)
    by (unfold N, data; rewrite !length_app, Lraw, Ltail; lia).
  unfold pg_find_module_signature.
  erewrite run_bind by apply fseek_end_0.
  erewrite run_bind by apply ftell_at.
  fold N. rewrite MODULE_SIG_STRING_LEN_eq. unfold sizeof_module_signature.
  rewrite (proj2 (Z.ltb_ge N _)) by lia.
  erewrite run_bind by (apply fseek_set_to; lia).
  erewrite run_bind;
    [ | apply (fread_at data (body ++ raw) tail [] 28 (N - 28));
        [ unfold data; now rewrite app_nil_r, app_assoc
        | rewrite length_app, Lraw; lia | now rewrite Ltail ] ].
  rewrite Ltail. change (Z.of_nat 28 =? 28) with true. cbn [negb].
  destruct (memcmp_eq tail MODULE_SIG_STRING); cbn [negb]; [|reflexivity].
  erewrite run_bind by (apply fseek_set_to; lia).
  erewrite run_bind;
    [ | apply (fread_at data body raw tail 12 (N - 28 - 12));
        [ reflexivity | lia | now rewrite Lraw ] ].
  destruct (module_signature_of_bytes e raw) as [s|]; [|reflexivity].
  unfold found_offset, ret. rewrite MODULE_SIG_STRING_LEN_eq.
  unfold sizeof_module_signature.
  destruct ((sig_len s =? 0) || (sig_len s >? N ÷ 2)); reflexivity.
Qed.

(** Without the magic string at its end, no file has a signature. *)
Lemma pg_find_without_magic e sig0 data p :
  (length data < 40)%nat \/
  skipn (length data - 28) data <> MODULE_SIG_STRING ->
  fst (pg_find_module_signature e sig0 (mkFILE data p)) = (-1, sig0).
Proof.
  intros H.
  destruct (Nat.lt_ge_cases (length data) 40) as [Short|Long].
  - apply pg_find_short. rewrite MODULE_SIG_STRING_LEN_eq.
    unfold sizeof_module_signature. lia.
  - destruct H as [H|H]; [lia|].
    destruct (file_split data Long) as (body & raw & tail & Hd & Lr & Lt & Ht).
    rewrite Hd at 1. rewrite (pg_find_shape e sig0 body raw tail p Lr Lt).
    destruct (memcmp_eq tail MODULE_SIG_STRING) eqn:E; [|reflexivity].
    apply memcmp_eq_iff in E. congruence.
Qed.

(** What a non-negative return value tells about the file. *)
Lemma pg_find_nonneg e sig0 data p off s :
  fst (pg_find_module_signature e sig0 (mkFILE data p)) = (off, s) ->
  0 <= off ->
  exists body raw,
    data = body ++ raw ++ MODULE_SIG_STRING /\
    module_signature_of_bytes e raw = Some s /\
    off = found_offset (Z.of_nat (length data)) s.
Proof.
  intros H Hoff.
  destruct (Nat.lt_ge_cases (length data) 40) as [Short|Long].
  - rewrite pg_find_short in H
      by (rewrite MODULE_SIG_STRING_LEN_eq; unfold sizeof_module_signature; lia).
    injection H as <- <-. lia.
  - destruct (file_split data Long) as (body & raw & tail & Hd & Lr & Lt & _).
    rewrite Hd in H at 1.
    rewrite (pg_find_shape e sig0 body raw tail p Lr Lt) in H.
    destruct (memcmp_eq tail MODULE_SIG_STRING) eqn:E;
      [|injection H as <- <-; lia].
    apply memcmp_eq_iff in E. subst tail.
    destruct (module_signature_of_bytes e raw) as [s'|] eqn:Hs;
      [|injection H as <- <-; lia].
    injection H as <- <-. exists body, raw. rewrite <- Hd. now repeat split.
Qed.

(** X1.  When the parser returns a non-negative offset, the file ends in
    a header and the magic string, the header is the one handed back, its
    [sig_len] is between 1 and half the file size, and the offset and
    [sig_len] add up to the position of the header: the signature bytes
    the verifier goes on to read end where the header starts. *)
Theorem found_signature_precedes_header e sig0 data p off s :
  fst (pg_find_module_signature e sig0 (mkFILE data p)) = (off, s) ->
  0 <= off ->
  (exists body, data = with_trailer e body s) /\
  1 <= sig_len s <= (Z.of_nat (length data) ÷ 2) /\
  off + sig_len s + sizeof_module_signature + MODULE_SIG_STRING_LEN =
    Z.of_nat (length data).
Proof.
  intros H Hoff.
  destruct (pg_find_nonneg e sig0 data p off s H Hoff)
    as (body & raw & Hd & Hs & ->).
  destruct (module_signature_bytes_of_bytes _ _ _ Hs) as [Himg R].
  destruct (found_offset_nonneg _ s (proj1 R) Hoff) as [Hlen Hval].
  split; [|split].
  - exists body. unfold with_trailer. now rewrite Himg.
  - exact Hlen.
  - rewrite Hval. lia.
Qed.

(** ** Results of the verifier on any file *)

(** X2.  A module shorter than 40 bytes, or whose last 28 bytes are not
    the magic string, is reported as unsigned whatever the cache holds:
    every field of the result is zero or absent but the message, when
    [strdup] finds memory for it, and the time. *)
Theorem module_without_magic_is_unsigned path g data :
  malloc_ok alloc_result sizeof_result = true ->
  strdup_ok dup_error_message "No signature found in module" = true ->
  file_contents path = Some data ->
  (length data < 40)%nat \/
  skipn (length data - 28) data <> MODULE_SIG_STRING ->
  pg_verify_module_signature path g =
    Some (mk_result 0 0 None None None
            (Some "No signature found in module"%string) 0 0 time_now).
Proof.
  intros Hm Hdup Hf Hd. unfold pg_verify_module_signature. rewrite Hm, Hf.
  cbn [negb]. unfold fopen.
  pose proof (pg_find_without_magic host_byte_order indeterminate_sig data 0 Hd)
    as E.
  destruct (pg_find_module_signature _ _ _) as [[off s] f].
  cbn [fst] in E. injection E as -> ->.
  change (-1 <? 0) with true. cbv iota.
  unfold set_error_message, strdup. rewrite Hdup. reflexivity.
Qed.

(** X3.  Whenever a result says that the module has a signature, the
    offset and the size it reports delimit a region inside the file that
    ends where the 12-byte header starts, and the size is between 1 and
    half the file size. *)
Theorem reported_signature_region path g data r :
  file_contents path = Some data ->
  pg_verify_module_signature path g = Some r ->
  has_signature r = 1 ->
  0 <= signature_offset r /\
  1 <= signature_size r <= (Z.of_nat (length data) ÷ 2) /\
  signature_offset r + signature_size r + sizeof_module_signature
    + MODULE_SIG_STRING_LEN = Z.of_nat (length data).
Proof.
  intros Hf H. unfold pg_verify_module_signature in H. rewrite Hf in H.
  destruct (negb _); [discriminate|]. unfold fopen in H.
  destruct (pg_find_module_signature _ _ _) as [[off s] f] eqn:E.
  destruct (Z.ltb_spec off 0) as [Neg|Pos];
    [injection H as <-; discriminate|].
  assert (E' : fst (pg_find_module_signature host_byte_order indeterminate_sig
                      (mkFILE data 0)) = (off, s)) by now rewrite E.
  destruct (pg_find_nonneg _ _ _ _ _ _ E' Pos) as (body & raw & Hd & Hs & Hoff).
  destruct (module_signature_bytes_of_bytes _ _ _ Hs) as [_ R].
  rewrite Hoff in Pos.
  destruct (found_offset_nonneg _ s (proj1 R) Pos) as [Hlen Hval].
  rewrite <- Hoff in Hval.
  assert (Goal : forall r',
             signature_offset r' = off -> signature_size r' = sig_len s ->
             0 <= signature_offset r' /\
             1 <= signature_size r' <= (Z.of_nat (length data) ÷ 2) /\
             signature_offset r' + signature_size r' + sizeof_module_signature
               + MODULE_SIG_STRING_LEN = Z.of_nat (length data)).
  { intros r' -> ->. rewrite Hoff. repeat split; lia. }
  intros _. clear E E' Hd Hs Hoff Hlen Hval R Pos.
  repeat match type of H with
         | context [match ?x with _ => _ end] => destruct x eqn:?
         end;
    try discriminate H; injection H as <-; try loop_cases;
    apply Goal; reflexivity.
Qed.

(** X4.  The message of a result, when there is one, is one of six fixed
    phrases. *)
Theorem error_message_is_fixed_phrase path g r m :
  pg_verify_module_signature path g = Some r ->
  error_message r = Some m ->
  In m ["Failed to open module file";
        "No signature found in module";
        "Failed to extract signature data";
        "Unknown hash algorithm";
        "Failed to calculate module hash";
        "Signature verification failed against all certificates"]%string.
Proof.
  intros H. verify_cases H; try loop_cases; cbn; unfold strdup;
    try match goal with
        | |- context [strdup_ok ?a ?b] => destruct (strdup_ok a b)
        end;
    intros [= <-]; tauto.
Qed.

Lemma verify_null_iff path g :
  pg_verify_module_signature path g = None <->
  malloc_ok alloc_result sizeof_result = false.
Proof.
  unfold pg_verify_module_signature.
  destruct (malloc_ok alloc_result sizeof_result); cbn [negb];
    [|now split].
  split; [|discriminate]. intros H.
  repeat match type of H with
         | context [match ?x with _ => _ end] => destruct x eqn:?
         end; discriminate H.
Qed.

(** X5.  The verifier returns [NULL] exactly when the result structure
    cannot be allocated: every other failure is reported in a result. *)
Theorem null_result_iff_allocation_fails path g :
  pg_verify_module_signature path g = None <->
  malloc_ok alloc_result sizeof_result = false.
Proof.
  apply verify_null_iff.
Qed.

(** ** The certificate loop *)

Lemma try_certificates_none module_hash sig_data cache result :
  Forall (fun entry =>
            pg_verify_signature_with_cert module_hash sig_data (cert entry) = 0)
    cache ->
  try_certificates module_hash sig_data cache result = (result, 0).
Proof.
  induction 1 as [|entry next Hx _ IH]; cbn [try_certificates]; [reflexivity|].
  now rewrite Hx.
Qed.

Lemma try_certificates_first module_hash sig_data before entry behind result :
  Forall (fun entry' =>
            pg_verify_signature_with_cert module_hash sig_data (cert entry') = 0)
    before ->
  pg_verify_signature_with_cert module_hash sig_data (cert entry) <> 0 ->
  try_certificates module_hash sig_data (before ++ entry :: behind) result =
    (set_verified (fingerprint entry) result, 1).
Proof.
  intros Hb He. induction Hb as [|entry' next Hx _ IH]; cbn [try_certificates app].
  - now rewrite (proj2 (Z.eqb_neq _ _) He).
  - now rewrite Hx.
Qed.

(** X6.  For a module with an accepted trailer whose signature buffer,
    hash and digest are obtained: if some entry of the cache verifies the
    signature and no entry before it does, the result is valid, carries
    no message, names that entry's fingerprint as signer, ["rsa"] as
    algorithm and the name of the hash, when [strdup] finds memory for
    these three strings, and reports the length of the content as offset;
    the entries behind it play no part. *)
Theorem first_verifying_entry_signs path g content signature s hash_algo name
  module_hash before entry behind :
  malloc_ok alloc_result sizeof_result = true ->
  file_contents path =
    Some (with_trailer host_byte_order (content ++ signature) s) ->
  sig_len s = Z.of_nat (length signature) ->
  sig_len s < 2 ^ 32 ->
  1 <= sig_len s <=
    Z.of_nat (length (with_trailer host_byte_order (content ++ signature) s)) ÷ 2 ->
  malloc_ok alloc_sig_data (sig_len s) = true ->
  hash_algorithm_of (hash s) = Some (hash_algo, name) ->
  digest_of_content hash_algo content = Some module_hash ->
  strdup_ok dup_hash_algorithm name = true ->
  strdup_ok dup_signer (fingerprint entry) = true ->
  strdup_ok dup_algorithm "rsa" = true ->
  cert_cache g = before ++ entry :: behind ->
  Forall (fun entry' =>
            pg_verify_signature_with_cert module_hash signature (cert entry') = 0)
    before ->
  pg_verify_signature_with_cert module_hash signature (cert entry) <> 0 ->
  pg_verify_module_signature path g =
    Some (mk_result 1 1 (Some (fingerprint entry)) (Some "rsa"%string)
            (Some name) None (Z.of_nat (length content)) (sig_len s) time_now).
Proof.
  intros Hm Hf Hl Hmax Hv Hsig Hh Hd Hd1 Hd2 Hd3 Hc Hb He.
  assert (Hs : module_signature_of_bytes host_byte_order
                 (module_signature_bytes host_byte_order s) = Some s)
    by (apply module_signature_of_bytes_image; lia).
  unfold with_trailer in *.
  rewrite (verify_signed path g content signature _ s Hm Hf Hs Hl Hv).
  unfold verdict. rewrite Hsig, Hh, Hd, Hc.
  rewrite (try_certificates_first _ _ _ _ _ _ Hb He).
  cbn [Z.eqb]. unfold set_verified, set_hash_algorithm, strdup. cbn.
  now rewrite Hd1, Hd2, Hd3.
Qed.

(** X7.  Under the same conditions, if no entry of the cache verifies
    the signature, the result has a signature, is not valid, names no
    signer and no algorithm, and carries the name of the hash and the
    message of a failed verification, when [strdup] finds memory for
    these two strings. *)
Theorem no_verifying_entry_fails path g content signature s hash_algo name
  module_hash :
  malloc_ok alloc_result sizeof_result = true ->
  file_contents path =
    Some (with_trailer host_byte_order (content ++ signature) s) ->
  sig_len s = Z.of_nat (length signature) ->
  sig_len s < 2 ^ 32 ->
  1 <= sig_len s <=
    Z.of_nat (length (with_trailer host_byte_order (content ++ signature) s)) ÷ 2 ->
  malloc_ok alloc_sig_data (sig_len s) = true ->
  hash_algorithm_of (hash s) = Some (hash_algo, name) ->
  digest_of_content hash_algo content = Some module_hash ->
  strdup_ok dup_hash_algorithm name = true ->
  strdup_ok dup_error_message
    "Signature verification failed against all certificates" = true ->
  Forall (fun entry =>
            pg_verify_signature_with_cert module_hash signature (cert entry) = 0)
    (cert_cache g) ->
  pg_verify_module_signature path g =
    Some (mk_result 0 1 None None (Some name)
            (Some "Signature verification failed against all certificates"%string)
            (Z.of_nat (length content)) (sig_len s) time_now).
Proof.
  intros Hm Hf Hl Hmax Hv Hsig Hh Hd Hd1 Hd2 Hc.
  assert (Hs : module_signature_of_bytes host_byte_order
                 (module_signature_bytes host_byte_order s) = Some s)
    by (apply module_signature_of_bytes_image; lia).
  unfold with_trailer in *.
  rewrite (verify_signed path g content signature _ s Hm Hf Hs Hl Hv).
  unfold verdict. rewrite Hsig, Hh, Hd.
  rewrite (try_certificates_none _ _ _ _ Hc).
  cbn [Z.eqb]. unfold set_error_message, set_hash_algorithm, strdup. cbn.
  now rewrite Hd1, Hd2.
Qed.

Lemma hash_algorithm_of_unknown h : 4 < u8 h -> hash_algorithm_of h = None.
Proof.
  unfold hash_algorithm_of. intros H.
  destruct (u8 h) as [|q|q]; [lia| |lia].
  destruct q as [[q|q|]|[q|q|]|]; try reflexivity; try lia;
    destruct q; try reflexivity; lia.
Qed.

(** X8.  A module with an accepted trailer whose hash identifier is above
    4 is rejected, once the signature buffer has been allocated, before
    any digest is computed and before the cache is looked at: the result
    has a signature, is not valid, names no hash algorithm and carries
    the message "Unknown hash algorithm", when [strdup] finds memory for
    it. *)
Theorem unknown_hash_identifier_rejected path g content signature s :
  malloc_ok alloc_result sizeof_result = true ->
  file_contents path =
    Some (with_trailer host_byte_order (content ++ signature) s) ->
  sig_len s = Z.of_nat (length signature) ->
  sig_len s < 2 ^ 32 ->
  1 <= sig_len s <=
    Z.of_nat (length (with_trailer host_byte_order (content ++ signature) s)) ÷ 2 ->
  malloc_ok alloc_sig_data (sig_len s) = true ->
  strdup_ok dup_error_message "Unknown hash algorithm" = true ->
  4 < u8 (hash s) ->
  pg_verify_module_signature path g =
    Some (mk_result 0 1 None None None (Some "Unknown hash algorithm"%string)
            (Z.of_nat (length content)) (sig_len s) time_now).
Proof.
  intros Hm Hf Hl Hmax Hv Hsig Hdup Hh.
  assert (Hs : module_signature_of_bytes host_byte_order
                 (module_signature_bytes host_byte_order s) = Some s)
    by (apply module_signature_of_bytes_image; lia).
  unfold with_trailer in *.
  rewrite (verify_signed path g content signature _ s Hm Hf Hs Hl Hv).
  unfold verdict. rewrite Hsig, (hash_algorithm_of_unknown _ Hh).
  unfold set_error_message, strdup. cbn. now rewrite Hdup.
Qed.

(** ** The digest of the content *)

Lemma chunks_concat k : forall l,
  (length l <= k)%nat -> concat (chunks k l) = l.
Proof.
  induction k as [|k IH]; intros [|x l] H; try reflexivity.
  - cbn in H. lia.
  - cbn [chunks concat]. rewrite IH.
    + apply firstn_skipn.
    + rewrite length_skipn. unfold sizeof_buffer. cbn [length] in *. lia.
Qed.

Lemma chunks_bounds k : forall l,
  Forall (fun b => (0 < length b <= Z.to_nat sizeof_buffer)%nat) (chunks k l).
Proof.
  induction k as [|k IH]; intros [|x l]; try constructor.
  - rewrite length_firstn. unfold sizeof_buffer. cbn [length]. lia.
  - apply IH.
Qed.

Lemma chunks_fuel k : forall k' l,
  (length l <= k)%nat -> (length l <= k')%nat -> chunks k l = chunks k' l.
Proof.
  induction k as [|k IH]; intros [|k'] [|x l] H H'; try reflexivity;
    try (cbn in H, H'; lia).
  cbn [chunks]. f_equal.
  apply IH; rewrite length_skipn; unfold sizeof_buffer; cbn [length] in *; lia.
Qed.

(** What is left of the first [r] bytes once a block of at most [n]
    bytes has been read. *)
Lemma skipn_block (rest : list byte) r n :
  skipn n (firstn r rest) =
    firstn (r - length (firstn (Nat.min r n) rest))
      (skipn (length (firstn (Nat.min r n) rest)) rest).
Proof.
  rewrite length_firstn, skipn_firstn_comm.
  destruct (Nat.le_gt_cases n (length rest)) as [Long|Short].
  - destruct (Nat.le_gt_cases n r).
    + now replace (Nat.min (Nat.min r n) (length rest)) with n by lia.
    + replace (r - n)%nat with 0%nat by lia.
      now replace (r - Nat.min (Nat.min r n) (length rest))%nat
        with 0%nat by lia.
  - rewrite (skipn_all2 rest) by lia. rewrite firstn_nil.
    destruct (Nat.le_gt_cases r (length rest)).
    + now replace (r - Nat.min (Nat.min r n) (length rest))%nat
        with 0%nat by lia.
    + rewrite (skipn_all2 rest) by lia. now rewrite firstn_nil.
Qed.

(** The loop feeds the bytes it is asked for, or those the file has, to
    [EVP_DigestUpdate] block by block. *)
Lemma hash_loop_chunks data k : forall ctx r p,
  0 <= p -> (r <= k)%nat ->
  fst (hash_loop (S k) ctx (Z.of_nat r) (mkFILE data p)) =
    match update_all ctx (chunks k (firstn r (skipn (Z.to_nat p) data))) with
    | Some ctx' => LoopDone ctx'
    | None => LoopUpdateFailed
    end.
Proof.
  induction k as [|k IH]; intros ctx r p Hp Hr.
  - replace r with 0%nat by lia. reflexivity.
  - remember (S k) as fuel eqn:Hfuel. cbn [hash_loop]. subst fuel.
    destruct r as [|r]; [reflexivity|].
    rewrite (proj2 (Z.gtb_gt _ _)) by lia.
    unfold bind, fread. cbn [f_data f_pos].
    set (rest := skipn (Z.to_nat p) data).
    set (n := Z.to_nat sizeof_buffer).
    assert (Hn : (0 < n)%nat) by (unfold n, sizeof_buffer; lia).
    set (to_read := if Z.of_nat (S r) >? sizeof_buffer then sizeof_buffer
                    else Z.of_nat (S r)).
    assert (Ht : Z.to_nat to_read = Nat.min (S r) n).
    { unfold to_read, n, sizeof_buffer.
      destruct (Z.gtb_spec (Z.of_nat (S r)) 8192); lia. }
    rewrite Ht. set (buffer := firstn (Nat.min (S r) n) rest).
    assert (Hfirst : firstn n (firstn (S r) rest) = buffer).
    { unfold buffer. rewrite firstn_firstn. f_equal. lia. }
    assert (Hskip : skipn n (firstn (S r) rest) =
                    firstn (S r - length buffer)
                      (skipn (Z.to_nat (p + Z.of_nat (length buffer))) data)).
    { rewrite skipn_block. fold buffer. f_equal. unfold rest.
      rewrite skipn_skipn. f_equal. lia. }
    destruct rest as [|x rest'] eqn:Hrest.
    + unfold buffer. rewrite firstn_nil. reflexivity.
    + assert (Lb : (0 < length buffer <= S r)%nat).
      { unfold buffer. rewrite length_firstn. cbn [length]. lia. }
      rewrite (proj2 (Z.eqb_neq _ _)) by lia.
      change (firstn (S r) (x :: rest')) with (x :: firstn r rest') in *.
      cbn [chunks]. fold n. rewrite Hfirst, Hskip. cbn [update_all].
      destruct (EVP_DigestUpdate ctx buffer) as [ctx'|]; [|reflexivity].
      replace (Z.of_nat (S r) - Z.of_nat (length buffer))
        with (Z.of_nat (S r - length buffer)) by lia.
      apply IH; lia.
Qed.

(** The digest is the one of the first [content_end] bytes of the file,
    or of the whole file when it is shorter, fed block by block. *)
Lemma pg_calculate_module_hash_blocks content_end hash_algo data p :
  fst (pg_calculate_module_hash content_end hash_algo (mkFILE data p)) =
    digest_of_blocks hash_algo
      (chunks (Z.to_nat content_end) (firstn (Z.to_nat content_end) data)).
Proof.
  unfold pg_calculate_module_hash, digest_of_blocks.
  destruct EVP_MD_CTX_new as [ctx|]; [|reflexivity].
  destruct (EVP_DigestInit_ex ctx hash_algo) as [ctx'|]; [|reflexivity].
  destruct (malloc_ok alloc_hash (EVP_MD_size hash_algo)); [|reflexivity].
  cbn [negb].
  rewrite (run_bind (fseek_set 0) _ _ tt (mkFILE data 0))
    by (apply fseek_set_to; lia).
  unfold bind.
  pose proof (hash_loop_chunks data (Z.to_nat content_end) ctx'
                (Z.to_nat content_end) 0 (Z.le_refl 0) (Nat.le_refl _)) as E.
  change (Z.to_nat 0) with 0%nat in E. cbn [skipn] in E.
  destruct (Z.le_gt_cases 0 content_end) as [Pos|Neg].
  - rewrite Z2Nat.id in E by exact Pos.
    destruct (hash_loop _ _ _ _) as [out f]. cbn [fst] in E. subst out.
    destruct (update_all _ _); reflexivity.
  - replace (Z.to_nat content_end) with 0%nat by lia.
    cbn [hash_loop]. rewrite Z.gtb_ltb.
    rewrite (proj2 (Z.ltb_ge _ _)) by lia. reflexivity.
Qed.

(** X9.  The digest is computed from the first [content_end] bytes of
    the file (all of them when the file is shorter) and from nothing
    else: they are fed to [EVP_DigestUpdate] in order, in blocks of 1 to
    8192 bytes that together are exactly these bytes, whatever the
    position of the stream at the call. *)
Theorem digest_is_over_content_blocks content_end hash_algo data p :
  exists blocks,
    concat blocks = firstn (Z.to_nat content_end) data /\
    Forall (fun b => (0 < length b <= Z.to_nat sizeof_buffer)%nat) blocks /\
    fst (pg_calculate_module_hash content_end hash_algo (mkFILE data p)) =
      digest_of_blocks hash_algo blocks.
Proof.
  exists (chunks (Z.to_nat content_end) (firstn (Z.to_nat content_end) data)).
  split; [|split].
  - apply chunks_concat. rewrite length_firstn. lia.
  - apply chunks_bounds.
  - apply pg_calculate_module_hash_blocks.
Qed.

(** X10.  Two files that agree on their first [content_end] bytes have
    the same digest: the signature, the header and the magic string that
    follow the content do not enter it. *)
Theorem digest_ignores_bytes_after_content_end content_end hash_algo
  data data' p p' :
  firstn (Z.to_nat content_end) data = firstn (Z.to_nat content_end) data' ->
  fst (pg_calculate_module_hash content_end hash_algo (mkFILE data p)) =
    fst (pg_calculate_module_hash content_end hash_algo (mkFILE data' p')).
Proof.
  intros H. rewrite !pg_calculate_module_hash_blocks. now rewrite H.
Qed.

(** X11.  A [content_end] beyond the end of the file is not an error:
    the loop stops at the first empty read and the digest is the one of
    the whole file. *)
Theorem digest_beyond_end_of_file content_end hash_algo data p :
  Z.of_nat (length data) <= content_end ->
  fst (pg_calculate_module_hash content_end hash_algo (mkFILE data p)) =
    fst (pg_calculate_module_hash (Z.of_nat (length data)) hash_algo
           (mkFILE data p)).
Proof.
  intros H. rewrite !pg_calculate_module_hash_blocks. f_equal.
  rewrite Nat2Z.id, firstn_all, firstn_all2 by lia.
  apply chunks_fuel; lia.
Qed.

(** ** Extraction of the signature *)

(** X12.  [pg_extract_signature] hands back exactly the [sig_len] bytes
    of the file from the offset on, and fails when the buffer cannot be
    allocated or when the file ends before [offset + sig_len]; it never
    hands back fewer bytes than asked. *)
Theorem extracted_signature_bytes s off data p :
  0 <= off -> 0 < sig_len s ->
  fst (pg_extract_signature s off (mkFILE data p)) =
    if malloc_ok alloc_sig_data (sig_len s)
       && (off + sig_len s <=? Z.of_nat (length data))
    then Some (firstn (Z.to_nat (sig_len s)) (skipn (Z.to_nat off) data))
    else None.
Proof.
  intros Hoff Hlen. unfold pg_extract_signature.
  destruct (malloc_ok alloc_sig_data (sig_len s)); [|reflexivity].
  cbn [negb andb].
  erewrite run_bind by (apply fseek_set_to; lia).
  unfold bind, fread, ret. cbn [f_data f_pos].
  set (sig_data := firstn _ _).
  assert (L : length sig_data =
              Nat.min (Z.to_nat (sig_len s)) (length data - Z.to_nat off))
    by (unfold sig_data; now rewrite length_firstn, length_skipn).
  destruct (Z.leb_spec (off + sig_len s) (Z.of_nat (length data))).
  - rewrite (proj2 (Z.eqb_eq _ _)) by lia. reflexivity.
  - rewrite (proj2 (Z.eqb_neq _ _)) by lia. reflexivity.
Qed.

(** X13.  Inside the verifier the read of the signature cannot come
    short: a result carries "Failed to extract signature data" only when
    the allocation of the signature buffer, of the size the result
    reports, failed. *)
Theorem extraction_fails_only_on_allocation path g r :
  pg_verify_module_signature path g = Some r ->
  error_message r = Some "Failed to extract signature data"%string ->
  malloc_ok alloc_sig_data (signature_size r) = false.
Proof.
  intros H Hmsg.
  destruct (malloc_ok alloc_result sizeof_result) eqn:Hm;
    [|unfold pg_verify_module_signature in H; rewrite Hm in H; discriminate].
  destruct (file_contents path) as [data|] eqn:Hf;
    [|unfold pg_verify_module_signature in H; rewrite Hm, Hf in H;
      injection H as <-; other_message Hmsg].
  destruct (fst (pg_find_module_signature host_byte_order indeterminate_sig
                   (mkFILE data 0))) as [off s] eqn:E.
  destruct (Z.ltb_spec off 0) as [Neg|Pos].
  - unfold pg_verify_module_signature, fopen in H. rewrite Hm, Hf in H.
    destruct (pg_find_module_signature _ _ _) as [[off' s'] f].
    cbn [fst] in E. injection E as -> ->.
    rewrite (proj2 (Z.ltb_lt _ _) Neg) in H. injection H as <-.
    other_message Hmsg.
  - destruct (pg_find_nonneg _ _ _ _ _ _ E Pos) as (body & raw & Hd & Hs & Hoff).
    subst data. rewrite (verify_trailer path g body raw s Hm Hf Hs) in H.
    rewrite <- Hoff in H. rewrite (proj2 (Z.ltb_ge _ _) Pos) in H.
    injection H as <-. unfold verdict in *.
    destruct (malloc_ok alloc_sig_data (sig_len s)) eqn:Hsig; [|exact Hsig].
    destruct (hash_algorithm_of (hash s)) as [[hash_algo name]|];
      [|other_message Hmsg].
    destruct (digest_of_content _ _); [|other_message Hmsg].
    destruct (try_certificates _ _ _ _) as [r' v] eqn:Et.
    loop_cases; other_message Hmsg.
Qed.

(** ** Loading certificates *)

(** The two outcomes of a load. *)
Lemma pg_load_certificate_cases cert_path g r g' :
  pg_load_certificate cert_path g = (r, g') ->
  (r = 0 /\ cert_cache g' = cert_cache g) \/
  (r = 1 /\
   exists c,
     cert_cache g' =
       mk_cert_cache_entry c (fingerprint_of (X509_digest c EVP_sha256))
         :: cert_cache g).
Proof.
  unfold pg_load_certificate.
  assert (Init : exists g0,
             pg_init_openssl g = (1, g0) /\ cert_cache g0 = cert_cache g).
  { unfold pg_init_openssl. destruct (negb _); eexists; split; reflexivity. }
  destruct Init as (g0 & -> & Hc). cbn [Z.eqb].
  destruct (file_contents cert_path) as [cert_file|];
    [|intros [= <- <-]; now left].
  destruct (match PEM_read_X509 cert_file with
            | Some c => Some c
            | None => d2i_X509_fp cert_file
            end) as [c|]; [|intros [= <- <-]; now left].
  destruct (negb _); intros [= <- <-]; [now left|].
  right. split; [reflexivity|]. exists c. cbn. now rewrite Hc.
Qed.

(** X14.  A load that fails (file not opened, neither PEM nor DER, no
    memory for the entry) returns 0 and leaves the cache as it was; the
    return value is never anything but 0 or 1. *)
Theorem failed_load_keeps_cache cert_path g r g' :
  pg_load_certificate cert_path g = (r, g') ->
  (r = 0 \/ r = 1) /\ (r = 0 -> cert_cache g' = cert_cache g).
Proof.
  intros H.
  destruct (pg_load_certificate_cases _ _ _ _ H) as [[-> Hc]|[-> _]].
  - split; [now left|now intros _].
  - split; [now right|discriminate].
Qed.

Lemma hex_string_length md :
  String.length (hex_string md) = (2 * length md)%nat.
Proof.
  unfold hex_string. induction md as [|b md IH]; [reflexivity|].
  cbn [flat_map app string_of_list_ascii String.length length].
  rewrite IH. lia.
Qed.

(** X15.  The fingerprint cached with a loaded certificate is the
    lowercase hexadecimal text of its SHA-256 digest, 64 characters, or
    the word "unknown" when the digest could not be computed. *)
Theorem loaded_fingerprint_is_hex cert_path g g' :
  pg_load_certificate cert_path g = (1, g') ->
  exists entry,
    cert_cache g' = entry :: cert_cache g /\
    match X509_digest (cert entry) EVP_sha256 with
    | Some md =>
        fingerprint entry = hex_string md /\
        String.length (fingerprint entry) = 64%nat
    | None => fingerprint entry = "unknown"%string
    end.
Proof.
  intros H.
  destruct (pg_load_certificate_cases _ _ _ _ H) as [[E _]|[_ (c & Hc)]];
    [discriminate|].
  eexists. split; [exact Hc|]. cbn [cert fingerprint].
  destruct (X509_digest c EVP_sha256) as [md|] eqn:Hd.
  - rewrite fingerprint_of_digest. split; [reflexivity|].
    rewrite hex_string_length, (X509_digest_sha256_len c md Hd). reflexivity.
  - apply fingerprint_of_no_digest.
Qed.

Lemma load_each_grows cert_dir names : forall loaded0 g loaded g',
  load_each cert_dir names loaded0 g = (loaded, g') ->
  exists new,
    cert_cache g' = new ++ cert_cache g /\
    loaded = loaded0 + Z.of_nat (length new) /\
    (length new <= length names)%nat.
Proof.
  induction names as [|name rest IH]; intros loaded0 g loaded g' H.
  - cbn in H. injection H as <- <-. exists []. cbn. repeat split; lia.
  - cbn [load_each] in H. destruct (access_R_OK _).
    + destruct (pg_load_certificate _ g) as [r g1] eqn:E.
      destruct (IH _ _ _ _ H) as (new & Hc & Hl & Hn).
      destruct (pg_load_certificate_cases _ _ _ _ E) as [[-> Hc1]|[-> (c & Hc1)]].
      * exists new. rewrite Hc, Hc1. cbn [Z.eqb] in Hl. cbn [length].
        repeat split; lia.
      * eexists (new ++ [_]). rewrite Hc, Hc1, <- app_assoc.
        split; [reflexivity|]. rewrite length_app. cbn [Z.eqb length] in *.
        split; lia.
    + destruct (IH _ _ _ _ H) as (new & Hc & Hl & Hn).
      exists new. cbn [length]. repeat split; try assumption; lia.
Qed.

(** X16.  [pg_load_certificates_from_dir] only adds to the cache: the
    entries it found before are still there, behind the new ones, and
    the number it returns is the number of entries it added, between 0
    and 5. *)
Theorem load_from_dir_counts_new_entries cert_dir g loaded g' :
  pg_load_certificates_from_dir cert_dir g = (loaded, g') ->
  exists new,
    cert_cache g' = new ++ cert_cache g /\
    loaded = Z.of_nat (length new) /\
    0 <= loaded <= 5.
Proof.
  intros H. destruct (load_each_grows _ _ _ _ _ _ H) as (new & Hc & Hl & Hn).
  exists new. cbn [length cert_files] in Hn. repeat split; try assumption; lia.
Qed.

(** X17.  After [pg_cleanup] the cache is empty and no module verifies:
    every result has [valid = 0], whatever was loaded before. *)
Theorem cleanup_then_nothing_verifies path g r :
  pg_verify_module_signature path (pg_cleanup g) = Some r ->
  cert_cache (pg_cleanup g) = [] /\ valid r = 0.
Proof.
  intros H. split; [reflexivity|].
  unfold pg_verify_module_signature in H.
  cbn [pg_cleanup cert_cache try_certificates] in H.
  repeat match type of H with
         | context [match ?x with _ => _ end] => destruct x eqn:?
         end;
    try discriminate H; injection H as <-; try reflexivity.
Qed.

(** ** The test program *)


(** ** The path of a certificate file *)

Lemma substring_0_length n : forall s,
  String.length (substring 0 n s) = Nat.min n (String.length s).
Proof.
  induction n as [|n IH]; intros [|c s]; cbn; try reflexivity.
  now rewrite IH.
Qed.

Lemma substring_0_all n : forall s,
  (String.length s <= n)%nat -> substring 0 n s = s.
Proof.
  induction n as [|n IH]; intros [|c s] H; cbn in *; try reflexivity;
    try lia.
  f_equal. apply IH. lia.
Qed.

Lemma string_length_append (s1 s2 : string) :
  String.length (s1 ++ s2) = (String.length s1 + String.length s2)%nat.
Proof.
  induction s1 as [|c s1 IH]; cbn; [reflexivity|]. now rewrite IH.
Qed.

(** X19.  The path built for a certificate file never has more than 511
    characters, the room of the 512-byte buffer; it is the directory, a
    slash and the file name when these fit, and their first 511
    characters otherwise. *)
Theorem cert_path_fits_buffer cert_dir name :
  (String.length (snprintf_path cert_dir name) <= 511)%nat /\
  ((String.length cert_dir + 1 + String.length name <= 511)%nat ->
   snprintf_path cert_dir name = (cert_dir ++ "/" ++ name)%string) /\
  ((511 < String.length cert_dir + 1 + String.length name)%nat ->
   String.length (snprintf_path cert_dir name) = 511%nat /\
   snprintf_path cert_dir name <> (cert_dir ++ "/" ++ name)%string).
Proof.
  unfold snprintf_path.
  assert (L : String.length (cert_dir ++ "/" ++ name) =
              (String.length cert_dir + 1 + String.length name)%nat)
    by (rewrite !string_length_append; cbn; lia).
  split; [|split].
  - rewrite substring_0_length. lia.
  - intros H. apply substring_0_all. lia.
  - intros H.
    assert (L' : String.length (substring 0 511 (cert_dir ++ "/" ++ name))
                 = 511%nat) by (rewrite substring_0_length; lia).
    split; [exact L'|]. intros E. rewrite E in L'. lia.
Qed.

End Facts.

(** ** The extent of the fingerprint stores *)

(** X21.  Whatever the outcome of the digest, every store made while
    the fingerprint is built lies between offset 0 and offset 64 of the
    buffer: the stores never reach below the buffer, and one more byte
    of room would hold them all. *)
Theorem fingerprint_stores_within_65_bytes (ssl : OpenSSL) (c : X509) :
  stores_in_bounds (fingerprint_size + 1)
    (fingerprint_stores (X509_digest c EVP_sha256)) = true.
Proof.
  destruct (X509_digest c EVP_sha256) as [md|] eqn:H.
  - exact (fingerprint_stores_fit_65 c md H).
  - reflexivity.
Qed.

(** ** File names the directory loader does not know *)

Lemma fingerprint_of_any_memory (sys sys' : System) digest :
  @fingerprint_of sys' digest = @fingerprint_of sys digest.
Proof.
  destruct digest as [md|].
  - now rewrite !fingerprint_of_digest.
  - reflexivity.
Qed.

Lemma pg_load_certificate_same_file (ssl : OpenSSL) (sys sys' : System)
  cert_path g :
  @file_contents sys' cert_path = @file_contents sys cert_path ->
  @malloc_ok sys' alloc_cache_entry 24 = @malloc_ok sys alloc_cache_entry 24 ->
  @pg_load_certificate ssl sys' cert_path g =
    @pg_load_certificate ssl sys cert_path g.
Proof.
  intros Hf Hm. unfold pg_load_certificate. rewrite Hf, Hm.
  destruct (pg_init_openssl g) as [ok g0]. destruct (ok =? 0); [reflexivity|].
  destruct (@file_contents sys cert_path) as [cert_file|]; [|reflexivity].
  destruct (match PEM_read_X509 cert_file with
            | Some c => Some c
            | None => d2i_X509_fp cert_file
            end) as [c|]; [|reflexivity].
  destruct (negb _); [reflexivity|].
  now rewrite (fingerprint_of_any_memory sys sys').
Qed.

(** X20.  The directory loader looks at the five recognised file names
    and at nothing else: on two systems that agree on whether these five
    paths are readable and on what they hold (and on the allocation of a
    cache entry), it returns the same count and leaves the same cache,
    whatever other files the directory has. *)
Theorem load_from_dir_reads_recognised_names_only (ssl : OpenSSL)
  (sys sys' : System) cert_dir g :
  (forall name, In name cert_files ->
     @access_R_OK sys' (snprintf_path cert_dir name) =
       @access_R_OK sys (snprintf_path cert_dir name) /\
     @file_contents sys' (snprintf_path cert_dir name) =
       @file_contents sys (snprintf_path cert_dir name)) ->
  @malloc_ok sys' alloc_cache_entry 24 = @malloc_ok sys alloc_cache_entry 24 ->
  @pg_load_certificates_from_dir ssl sys' cert_dir g =
    @pg_load_certificates_from_dir ssl sys cert_dir g.
Proof.
  intros Hfs Hm. unfold pg_load_certificates_from_dir.
  generalize 0 as loaded. revert g Hfs.
  induction cert_files as [|name rest IH]; intros g Hfs loaded; [reflexivity|].
  cbn [load_each].
  destruct (Hfs name (or_introl eq_refl)) as [Ha Hf]. rewrite Ha.
  destruct (@access_R_OK sys _).
  - rewrite (pg_load_certificate_same_file ssl sys sys' _ g Hf Hm).
    destruct (@pg_load_certificate ssl sys _ g) as [r g1].
    apply IH. intros n Hn. apply Hfs. now right.
  - apply IH. intros n Hn. apply Hfs. now right.
Qed.

(** * Runs on the bench *)

(** The signed module against a cache that holds its signer. *)
Example signed_and_trusted :
  @pg_verify_module_signature Bench.ssl (Bench.host LittleEndian) "signed.ko"
    (Bench.cache_of [Bench.entry_A]) = Some (Bench.valid_result Bench.fp_A).
Proof. vm_compute. reflexivity. Qed.

(** The signed module against a cache that holds an unrelated certificate. *)
Example signed_and_untrusted :
  exists r,
    @pg_verify_module_signature Bench.ssl (Bench.host LittleEndian) "signed.ko"
      (snd (@pg_load_certificate Bench.ssl (Bench.host LittleEndian) "C.crt"
              initial_globals)) = Some r /\
    has_signature r = 1 /\ valid r = 0 /\
    error_message r =
      Some "Signature verification failed against all certificates"%string.
Proof. eexists. split; [vm_compute; reflexivity|]. repeat split. Qed.

(** A header written on a big-endian host is not understood by a
    little-endian one: [sig_len = 2] is read as [0x02000000]. *)
Example foreign_byte_order :
  fst (pg_find_module_signature LittleEndian Bench.zero_sig
         (fopen (Bench.signed_module BigEndian))) =
    (-1, mk_module_signature x00 x02 x01 x00 x00 (x00, x00, x00) 33554432).
Proof. vm_compute. reflexivity. Qed.

(** A file of 42 bytes whose header says [sig_len = 5]: the parser returns
    the negative offset -3, which the verifier takes for no signature. *)
Example negative_offset :
  fst (fst (pg_find_module_signature LittleEndian Bench.zero_sig
              (fopen (with_trailer LittleEndian [x01; x02]
                        (Bench.hdr_sha256 5))))) = -3.
Proof. vm_compute. reflexivity. Qed.

(** A missing module file. *)
Example unopenable_module :
  @pg_verify_module_signature Bench.ssl (Bench.host LittleEndian) "missing.ko"
    initial_globals =
    Some (mk_result 0 0 None None None
            (Some "Failed to open module file"%string) 0 0 1700000000).
Proof. vm_compute. reflexivity. Qed.

(** The directory loader loads the two files whose names it recognises,
    ignores the third, and leaves the last one loaded at the head of the
    cache. *)
Example load_from_dir :
  exists g,
    @pg_load_certificates_from_dir Bench.ssl
      (Bench.sys LittleEndian
         [("/k/user_secureboot.crt", Bench.der_A);
          ("/k/phoenixguard.crt", Bench.der_B);
          ("/k/other.crt", Bench.der_C)]%string)
      "/k" initial_globals = (2, g) /\
    cert_cache g = [Bench.entry_B; Bench.entry_A].
Proof. eexists. split; vm_compute; reflexivity. Qed.

(** C1 fails as stated: with a one-byte signer name the parser
    returns 65 for a content of 64 bytes (big-endian host, so that the
    header is byte for byte the one of the design document). *)
Lemma trailer_round_trip_counterexample :
  fst (fst (pg_find_module_signature BigEndian Bench.zero_sig
              (fopen (signed_file BigEndian Bench.content Bench.signature_07
                        [x41] []
                        (mk_module_signature x00 x02 x01 x01 x00
                           (x00, x00, x00) 2))))) = 65 /\
  Z.of_nat (length Bench.content) = 64 /\
  fst (fst (pg_find_module_signature BigEndian Bench.zero_sig
              (fopen (signed_file BigEndian Bench.content Bench.signature_07
                        [x41] []
                        (mk_module_signature x00 x02 x01 x01 x00
                           (x00, x00, x00) 2))))) <>
    Z.of_nat (length Bench.content).
Proof.
  vm_compute. repeat split; discriminate.
Qed.

(** The amended round trip at a concrete file: 64 content bytes, a 2-byte
    signature, no signer name and no key identifier. *)
Lemma trailer_round_trip_witness :
  fst (pg_find_module_signature LittleEndian Bench.zero_sig
         (mkFILE (signed_file LittleEndian Bench.content Bench.signature_07
                    [] [] (Bench.hdr_sha256 2)) 0)) =
    (Z.of_nat (length Bench.content) + Z.of_nat (length (@nil byte))
       + Z.of_nat (length (@nil byte)), Bench.hdr_sha256 2) /\
  (Z.of_nat (length Bench.content) + Z.of_nat (length (@nil byte))
     + Z.of_nat (length (@nil byte)))
    + sig_len (Bench.hdr_sha256 2) + sizeof_module_signature
    + MODULE_SIG_STRING_LEN =
    Z.of_nat (length (signed_file LittleEndian Bench.content
                        Bench.signature_07 [] [] (Bench.hdr_sha256 2))).
Proof.
  apply (trailer_round_trip LittleEndian Bench.zero_sig 0 Bench.content
           Bench.signature_07 [] [] (Bench.hdr_sha256 2)).
  - reflexivity.
  - reflexivity.
  - vm_compute. split; discriminate.
Defined.

(** C2 fails as stated: the signed module with [sig_len] set to
    the length of the file (106) is reported as having no signature. *)
Lemma oversized_sig_len_counterexample :
  Z.of_nat (length (with_trailer BigEndian
                      (Bench.content ++ Bench.signature_07)
                      (Bench.hdr_sha256 106))) = 106 /\
  exists r,
    @pg_verify_module_signature Bench.ssl
      (Bench.sys BigEndian
         [("m.ko"%string,
           with_trailer BigEndian (Bench.content ++ Bench.signature_07)
             (Bench.hdr_sha256 106))])
      "m.ko" initial_globals = Some r /\
    has_signature r = 0 /\ has_signature r <> 1 /\
    error_message r = Some "No signature found in module"%string.
Proof.
  split; [reflexivity|]. eexists. split; [vm_compute; reflexivity|].
  repeat split. discriminate.
Qed.

Lemma oversized_sig_len_witness :
  exists r,
    @pg_verify_module_signature Bench.ssl
      (Bench.sys BigEndian
         [("m.ko"%string,
           with_trailer BigEndian (Bench.content ++ Bench.signature_07)
             (Bench.hdr_sha256 106))])
      "m.ko" initial_globals = Some r /\
    has_signature r = 0 /\ valid r = 0 /\
    error_message r = Some "No signature found in module"%string.
Proof.
  apply (@oversized_sig_len_reported_as_no_signature Bench.ssl
           (Bench.sys BigEndian
              [("m.ko"%string,
                with_trailer BigEndian (Bench.content ++ Bench.signature_07)
                  (Bench.hdr_sha256 106))])
           "m.ko"%string initial_globals
           (Bench.content ++ Bench.signature_07) (Bench.hdr_sha256 106)).
  - reflexivity.
  - reflexivity.
  - reflexivity.
  - vm_compute. split; [discriminate|reflexivity].
  - right. left. vm_compute. reflexivity.
Defined.

(** C3 fails as stated: A and B each verify the signed module;
    after loading A and then B, the signer is the fingerprint of B, which
    is not that of A. *)
Lemma certificate_order_counterexample :
  @pg_load_certificate Bench.ssl (Bench.host LittleEndian) "A.crt"
    initial_globals = (1, Bench.cache_of [Bench.entry_A]) /\
  @pg_load_certificate Bench.ssl (Bench.host LittleEndian) "B.crt"
    (Bench.cache_of [Bench.entry_A]) =
    (1, Bench.cache_of [Bench.entry_B; Bench.entry_A]) /\
  @pg_verify_module_signature Bench.ssl (Bench.host LittleEndian) "signed.ko"
    (Bench.cache_of [Bench.entry_A]) = Some (Bench.valid_result Bench.fp_A) /\
  @pg_verify_module_signature Bench.ssl (Bench.host LittleEndian) "signed.ko"
    (Bench.cache_of [Bench.entry_B]) = Some (Bench.valid_result Bench.fp_B) /\
  @pg_verify_module_signature Bench.ssl (Bench.host LittleEndian) "signed.ko"
    (Bench.cache_of [Bench.entry_B; Bench.entry_A]) =
    Some (Bench.valid_result Bench.fp_B) /\
  signer (Bench.valid_result Bench.fp_B) <> Some (fingerprint Bench.entry_A).
Proof.
  repeat split; try (vm_compute; reflexivity). discriminate.
Qed.

Lemma most_recently_loaded_certificate_wins_witness :
  exists entry_A entry_B,
    cert_cache (Bench.cache_of [Bench.entry_A]) =
      entry_A :: cert_cache initial_globals /\
    cert_cache (Bench.cache_of [Bench.entry_B; Bench.entry_A]) =
      entry_B :: entry_A :: cert_cache initial_globals /\
    forall r,
      @pg_verify_module_signature Bench.ssl (Bench.host LittleEndian)
        "signed.ko" (mk_globals [entry_B] 1) = Some r ->
      valid r = 1 ->
      @pg_verify_module_signature Bench.ssl (Bench.host LittleEndian)
        "signed.ko" (Bench.cache_of [Bench.entry_B; Bench.entry_A]) = Some r /\
      signer r = @strdup (Bench.host LittleEndian) dup_signer
                   (fingerprint entry_B) /\
      (@strdup_ok (Bench.host LittleEndian) dup_signer (fingerprint entry_B)
         = true ->
       signer r = Some (fingerprint entry_B)).
Proof.
  apply (@most_recently_loaded_certificate_wins Bench.ssl
           (Bench.host LittleEndian) "A.crt"%string "B.crt"%string
           "signed.ko"%string initial_globals
           (Bench.cache_of [Bench.entry_A])
           (Bench.cache_of [Bench.entry_B; Bench.entry_A])).
  - vm_compute. reflexivity.
  - vm_compute. reflexivity.
Defined.

(** C4 fails as stated: for a module of 2048 bytes without a
    trailer the result has [has_signature = 0] and [signature_offset = 0],
    not -1. *)
Lemma no_signature_offset_counterexample :
  @pg_verify_module_signature Bench.ssl (Bench.host LittleEndian)
    "unsigned.ko" initial_globals = Some Bench.unsigned_result /\
  has_signature Bench.unsigned_result = 0 /\
  signature_offset Bench.unsigned_result = 0 /\
  signature_offset Bench.unsigned_result <> -1.
Proof.
  repeat split; try (vm_compute; reflexivity). discriminate.
Qed.

Lemma no_signature_result_fields_witness :
  valid Bench.unsigned_result = 0 /\
  signature_offset Bench.unsigned_result = 0 /\
  signature_size Bench.unsigned_result = 0.
Proof.
  apply (@no_signature_result_fields Bench.ssl (Bench.host LittleEndian)
           "unsigned.ko"%string initial_globals Bench.unsigned_result).
  - vm_compute. reflexivity.
  - reflexivity.
Defined.

Lemma result_consistency_witness :
  (valid (Bench.valid_result Bench.fp_A) = 0 \/
   valid (Bench.valid_result Bench.fp_A) = 1) /\
  (valid (Bench.valid_result Bench.fp_A) = 1 ->
     has_signature (Bench.valid_result Bench.fp_A) = 1 /\
     error_message (Bench.valid_result Bench.fp_A) = None) /\
  (error_message (Bench.valid_result Bench.fp_A) <> None ->
   valid (Bench.valid_result Bench.fp_A) = 0) /\
  ((forall site s, @strdup_ok (Bench.host LittleEndian) site s = true) ->
   (valid (Bench.valid_result Bench.fp_A) = 1 ->
    signer (Bench.valid_result Bench.fp_A) <> None /\
    algorithm (Bench.valid_result Bench.fp_A) <> None /\
    hash_algorithm (Bench.valid_result Bench.fp_A) <> None) /\
   (valid (Bench.valid_result Bench.fp_A) = 0 ->
    error_message (Bench.valid_result Bench.fp_A) <> None)).
Proof.
  apply (@result_consistency Bench.ssl (Bench.host LittleEndian)
           "signed.ko"%string (Bench.cache_of [Bench.entry_A])
           (Bench.valid_result Bench.fp_A)).
  vm_compute. reflexivity.
Defined.

(** C5 fails on the program.  [strdup] is the one allocation whose
    return value the verifier stores without a check.  On a host where it
    finds no memory while [calloc] and [malloc] do, the signed module,
    verified by the cached certificate A, gets a result with [valid = 1]
    and no signer, no algorithm and no hash algorithm, and the unsigned
    module gets a result with [valid = 0] and no error message. *)
Theorem result_inconsistent_without_strdup :
  @pg_verify_module_signature Bench.ssl Cases.host_without_strdup "signed.ko"
    (Bench.cache_of [Bench.entry_A]) =
    Some (mk_result 1 1 None None None None 64 2 1700000000) /\
  @pg_verify_module_signature Bench.ssl Cases.host_without_strdup
    "unsigned.ko" (Bench.cache_of [Bench.entry_A]) =
    Some (mk_result 0 0 None None None None 0 0 1700000000).
Proof.
  split; vm_compute; reflexivity.
Qed.

(** C6 fails as stated: against an empty cache the signed
    module gets the message of a failed verification, not "No certificates
    loaded". *)
Lemma empty_cache_counterexample :
  exists r,
    @pg_verify_module_signature Bench.ssl (Bench.host LittleEndian)
      "signed.ko" initial_globals = Some r /\
    has_signature r = 1 /\ valid r = 0 /\
    error_message r =
      Some "Signature verification failed against all certificates"%string /\
    error_message r <> Some "No certificates loaded"%string.
Proof.
  eexists. split; [vm_compute; reflexivity|]. repeat split. discriminate.
Qed.

Lemma empty_cache_message_witness :
  exists r,
    @pg_verify_module_signature Bench.ssl (Bench.host LittleEndian)
      "signed.ko" initial_globals = Some r /\
    has_signature r = 1 /\ valid r = 0 /\
    error_message r =
      Some "Signature verification failed against all certificates"%string.
Proof.
  apply (@empty_cache_message Bench.ssl (Bench.host LittleEndian)
           "signed.ko"%string initial_globals Bench.content
           Bench.signature_07 (Bench.hdr_sha256 2) EVP_sha256 "sha256"%string
           (Bench.pad_to 32 Bench.content)).
  - reflexivity.
  - reflexivity.
  - reflexivity.
  - reflexivity.
  - vm_compute. split; discriminate.
  - reflexivity.
  - reflexivity.
  - vm_compute. reflexivity.
  - reflexivity.
  - reflexivity.
Defined.

(** C7 fails as stated: the signed module with [algo = 1] is
    verified like the one with [algo = 0]; the result is valid and has no
    error message. *)
Lemma unknown_algo_counterexample :
  u8 (algo (with_algo x01 (Bench.hdr_sha256 2))) = 1 /\
  exists r,
    @pg_verify_module_signature Bench.ssl (Bench.host LittleEndian)
      "algo1.ko" (Bench.cache_of [Bench.entry_A]) = Some r /\
    valid r = 1 /\ valid r <> 0 /\ error_message r = None /\
    error_message r <> Some "Unknown public-key algorithm"%string.
Proof.
  split; [reflexivity|].
  eexists. split; [vm_compute; reflexivity|]. repeat split; discriminate.
Qed.

Lemma algo_byte_not_consulted_witness :
  @pg_verify_module_signature Bench.ssl (Bench.host LittleEndian)
    "algo1.ko" (Bench.cache_of [Bench.entry_A]) =
  @pg_verify_module_signature Bench.ssl (Bench.host LittleEndian)
    "signed.ko" (Bench.cache_of [Bench.entry_A]) /\
  forall r,
    @pg_verify_module_signature Bench.ssl (Bench.host LittleEndian)
      "algo1.ko" (Bench.cache_of [Bench.entry_A]) = Some r ->
    error_message r <> Some "Unknown public-key algorithm"%string.
Proof.
  apply (@algo_byte_not_consulted Bench.ssl (Bench.host LittleEndian)
           "signed.ko"%string "algo1.ko"%string
           (Bench.cache_of [Bench.entry_A])
           (Bench.content ++ Bench.signature_07) (Bench.hdr_sha256 2) x01).
  - reflexivity.
  - reflexivity.
Defined.

(** C8 fails as stated: the signed module with the padding
    byte at header offset 5 set to 1 is verified like the one with zero
    padding; the result is valid. *)
Lemma nonzero_padding_counterexample :
  __pad (with_pad (x01, x00, x00) (Bench.hdr_sha256 2)) = (x01, x00, x00) /\
  exists r,
    @pg_verify_module_signature Bench.ssl (Bench.host LittleEndian)
      "pad1.ko" (Bench.cache_of [Bench.entry_A]) = Some r /\
    has_signature r = 1 /\ valid r = 1 /\ valid r <> 0 /\
    error_message r = None.
Proof.
  split; [reflexivity|].
  eexists. split; [vm_compute; reflexivity|]. repeat split; discriminate.
Qed.

Lemma padding_not_consulted_witness :
  @pg_verify_module_signature Bench.ssl (Bench.host LittleEndian)
    "pad1.ko" (Bench.cache_of [Bench.entry_A]) =
  @pg_verify_module_signature Bench.ssl (Bench.host LittleEndian)
    "signed.ko" (Bench.cache_of [Bench.entry_A]).
Proof.
  apply (@padding_not_consulted Bench.ssl (Bench.host LittleEndian)
           "signed.ko"%string "pad1.ko"%string
           (Bench.cache_of [Bench.entry_A])
           (Bench.content ++ Bench.signature_07) (Bench.hdr_sha256 2)
           (x01, x00, x00)).
  - reflexivity.
  - reflexivity.
Defined.



(** C10 at a concrete certificate: the stores made for certificate A,
    whose digest has 32 bytes, are not all inside the 64-byte buffer. *)
Lemma fingerprint_store_out_of_bounds_witness :
  In (fingerprint_size, NUL)
    (fingerprint_stores (Some (Bench.pad_to 32 Bench.der_A))) /\
  stores_in_bounds fingerprint_size
    (fingerprint_stores (Some (Bench.pad_to 32 Bench.der_A))) = false.
Proof.
  apply (@fingerprint_store_out_of_bounds Bench.ssl Bench.der_A
           (Bench.pad_to 32 Bench.der_A)).
  reflexivity.
Defined.

(** * The further properties on the bench *)

Lemma found_signature_precedes_header_witness :
  (exists body,
     Bench.signed_module LittleEndian =
       with_trailer LittleEndian body (Bench.hdr_sha256 2)) /\
  1 <= sig_len (Bench.hdr_sha256 2) <=
    (Z.of_nat (length (Bench.signed_module LittleEndian)) ÷ 2) /\
  64 + sig_len (Bench.hdr_sha256 2) + sizeof_module_signature
    + MODULE_SIG_STRING_LEN =
    Z.of_nat (length (Bench.signed_module LittleEndian)).
Proof.
  apply (found_signature_precedes_header LittleEndian Bench.zero_sig
           (Bench.signed_module LittleEndian) 0 64 (Bench.hdr_sha256 2)).
  - vm_compute. reflexivity.
  - lia.
Defined.

Lemma module_without_magic_is_unsigned_witness :
  @pg_verify_module_signature Bench.ssl Cases.host "unsigned.ko"
    (Bench.cache_of [Bench.entry_A]) =
    Some (mk_result 0 0 None None None
            (Some "No signature found in module"%string) 0 0
            (@time_now Cases.host)).
Proof.
  apply (@module_without_magic_is_unsigned Bench.ssl Cases.host
           "unsigned.ko"%string (Bench.cache_of [Bench.entry_A])
           (repeat x7f 2048)).
  - reflexivity.
  - reflexivity.
  - reflexivity.
  - right. vm_compute. discriminate.
Defined.

Lemma reported_signature_region_witness :
  0 <= signature_offset (Bench.valid_result Bench.fp_A) /\
  1 <= signature_size (Bench.valid_result Bench.fp_A) <=
    (Z.of_nat (length (Bench.signed_module LittleEndian)) ÷ 2) /\
  signature_offset (Bench.valid_result Bench.fp_A)
    + signature_size (Bench.valid_result Bench.fp_A)
    + sizeof_module_signature + MODULE_SIG_STRING_LEN =
    Z.of_nat (length (Bench.signed_module LittleEndian)).
Proof.
  apply (@reported_signature_region Bench.ssl Cases.host "signed.ko"%string
           (Bench.cache_of [Bench.entry_A]) (Bench.signed_module LittleEndian)
           (Bench.valid_result Bench.fp_A)).
  - reflexivity.
  - vm_compute. reflexivity.
  - reflexivity.
Defined.

Lemma error_message_is_fixed_phrase_witness :
  In "No signature found in module"%string
    ["Failed to open module file";
     "No signature found in module";
     "Failed to extract signature data";
     "Unknown hash algorithm";
     "Failed to calculate module hash";
     "Signature verification failed against all certificates"]%string.
Proof.
  apply (@error_message_is_fixed_phrase Bench.ssl Cases.host
           "unsigned.ko"%string initial_globals Bench.unsigned_result).
  - vm_compute. reflexivity.
  - reflexivity.
Defined.

Lemma first_verifying_entry_signs_witness :
  @pg_verify_module_signature Bench.ssl Cases.host "signed.ko"
    (Bench.cache_of [Cases.entry_C; Bench.entry_A; Bench.entry_B]) =
    Some (mk_result 1 1 (Some (fingerprint Bench.entry_A)) (Some "rsa"%string)
            (Some "sha256"%string) None (Z.of_nat (length Bench.content))
            (sig_len (Bench.hdr_sha256 2)) (@time_now Cases.host)).
Proof.
  apply (@first_verifying_entry_signs Bench.ssl Cases.host "signed.ko"%string
           (Bench.cache_of [Cases.entry_C; Bench.entry_A; Bench.entry_B])
           Bench.content Bench.signature_07 (Bench.hdr_sha256 2) EVP_sha256
           "sha256"%string Cases.content_digest
           [Cases.entry_C] Bench.entry_A [Bench.entry_B]).
  - reflexivity.
  - reflexivity.
  - reflexivity.
  - reflexivity.
  - vm_compute. split; discriminate.
  - reflexivity.
  - reflexivity.
  - vm_compute. reflexivity.
  - reflexivity.
  - reflexivity.
  - reflexivity.
  - reflexivity.
  - constructor; [vm_compute; reflexivity|constructor].
  - vm_compute. discriminate.
Defined.

Lemma no_verifying_entry_fails_witness :
  @pg_verify_module_signature Bench.ssl Cases.host "signed.ko"
    (Bench.cache_of [Cases.entry_C]) =
    Some (mk_result 0 1 None None (Some "sha256"%string)
            (Some "Signature verification failed against all certificates"%string)
            (Z.of_nat (length Bench.content)) (sig_len (Bench.hdr_sha256 2))
            (@time_now Cases.host)).
Proof.
  apply (@no_verifying_entry_fails Bench.ssl Cases.host "signed.ko"%string
           (Bench.cache_of [Cases.entry_C])
           Bench.content Bench.signature_07 (Bench.hdr_sha256 2) EVP_sha256
           "sha256"%string Cases.content_digest).
  - reflexivity.
  - reflexivity.
  - reflexivity.
  - reflexivity.
  - vm_compute. split; discriminate.
  - reflexivity.
  - reflexivity.
  - vm_compute. reflexivity.
  - reflexivity.
  - reflexivity.
  - constructor; [vm_compute; reflexivity|constructor].
Defined.

Lemma unknown_hash_identifier_rejected_witness :
  @pg_verify_module_signature Bench.ssl Cases.host "hash5.ko"
    (Bench.cache_of [Bench.entry_A]) =
    Some (mk_result 0 1 None None None (Some "Unknown hash algorithm"%string)
            (Z.of_nat (length Bench.content)) (sig_len Cases.hdr_hash5)
            (@time_now Cases.host)).
Proof.
  apply (@unknown_hash_identifier_rejected Bench.ssl Cases.host
           "hash5.ko"%string (Bench.cache_of [Bench.entry_A])
           Bench.content Bench.signature_07 Cases.hdr_hash5).
  - reflexivity.
  - reflexivity.
  - reflexivity.
  - reflexivity.
  - vm_compute. split; discriminate.
  - reflexivity.
  - reflexivity.
  - reflexivity.
Defined.

Lemma digest_ignores_bytes_after_content_end_witness :
  fst (@pg_calculate_module_hash Bench.ssl Cases.host 64 EVP_sha256
         (mkFILE (Bench.signed_module LittleEndian) 0)) =
  fst (@pg_calculate_module_hash Bench.ssl Cases.host 64 EVP_sha256
         (mkFILE Cases.hash5_module 5)).
Proof.
  apply (@digest_ignores_bytes_after_content_end Bench.ssl Cases.host 64
           EVP_sha256 (Bench.signed_module LittleEndian) Cases.hash5_module
           0 5).
  vm_compute. reflexivity.
Defined.

Lemma digest_beyond_end_of_file_witness :
  fst (@pg_calculate_module_hash Bench.ssl Cases.host 10 EVP_sha256
         (mkFILE [x01; x02; x03] 0)) =
  fst (@pg_calculate_module_hash Bench.ssl Cases.host
         (Z.of_nat (length [x01; x02; x03])) EVP_sha256
         (mkFILE [x01; x02; x03] 0)).
Proof.
  apply (@digest_beyond_end_of_file Bench.ssl Cases.host 10 EVP_sha256
           [x01; x02; x03] 0).
  vm_compute. discriminate.
Defined.

Lemma extracted_signature_bytes_witness :
  fst (@pg_extract_signature Cases.host (Bench.hdr_sha256 2) 64
         (mkFILE (Bench.signed_module LittleEndian) 0)) =
    if @malloc_ok Cases.host alloc_sig_data (sig_len (Bench.hdr_sha256 2))
       && (64 + sig_len (Bench.hdr_sha256 2) <=?
           Z.of_nat (length (Bench.signed_module LittleEndian)))
    then Some (firstn (Z.to_nat (sig_len (Bench.hdr_sha256 2)))
                 (skipn (Z.to_nat 64) (Bench.signed_module LittleEndian)))
    else None.
Proof.
  apply (@extracted_signature_bytes Cases.host (Bench.hdr_sha256 2) 64
           (Bench.signed_module LittleEndian) 0).
  - lia.
  - reflexivity.
Defined.

Lemma extraction_fails_only_on_allocation_witness :
  @malloc_ok Cases.host_without_sig_memory alloc_sig_data
    (signature_size
       (mk_result 0 1 None None None
          (Some "Failed to extract signature data"%string) 64 2 1700000000))
  = false.
Proof.
  apply (@extraction_fails_only_on_allocation Bench.ssl
           Cases.host_without_sig_memory "signed.ko"%string
           (Bench.cache_of [Bench.entry_A])
           (mk_result 0 1 None None None
              (Some "Failed to extract signature data"%string) 64 2
              1700000000)).
  - vm_compute. reflexivity.
  - reflexivity.
Defined.

Lemma failed_load_keeps_cache_witness :
  (0 = 0 \/ 0 = 1) /\
  (0 = 0 ->
   cert_cache (Bench.cache_of [Bench.entry_A]) =
     cert_cache (Bench.cache_of [Bench.entry_A])).
Proof.
  apply (@failed_load_keeps_cache Bench.ssl Cases.host "unsigned.ko"%string
           (Bench.cache_of [Bench.entry_A]) 0
           (Bench.cache_of [Bench.entry_A])).
  vm_compute. reflexivity.
Defined.

Lemma loaded_fingerprint_is_hex_witness :
  exists entry,
    cert_cache (Bench.cache_of [Bench.entry_A]) =
      entry :: cert_cache initial_globals /\
    match @X509_digest Bench.ssl (cert entry) EVP_sha256 with
    | Some md =>
        fingerprint entry = hex_string md /\
        String.length (fingerprint entry) = 64%nat
    | None => fingerprint entry = "unknown"%string
    end.
Proof.
  apply (@loaded_fingerprint_is_hex Bench.ssl Cases.host "A.crt"%string
           initial_globals (Bench.cache_of [Bench.entry_A])).
  vm_compute. reflexivity.
Defined.

Lemma load_from_dir_counts_new_entries_witness :
  exists new,
    cert_cache (Bench.cache_of [Bench.entry_B; Bench.entry_A; Cases.entry_C]) =
      new ++ cert_cache (Bench.cache_of [Cases.entry_C]) /\
    2 = Z.of_nat (length new) /\
    0 <= 2 <= 5.
Proof.
  apply (@load_from_dir_counts_new_entries Bench.ssl Cases.host "/k"%string
           (Bench.cache_of [Cases.entry_C]) 2
           (Bench.cache_of [Bench.entry_B; Bench.entry_A; Cases.entry_C])).
  vm_compute. reflexivity.
Defined.

Lemma cleanup_then_nothing_verifies_witness :
  cert_cache (pg_cleanup (Bench.cache_of [Bench.entry_A])) = [] /\
  valid (mk_result 0 1 None None (Some "sha256"%string)
           (Some "Signature verification failed against all certificates"%string)
           64 2 1700000000) = 0.
Proof.
  apply (@cleanup_then_nothing_verifies Bench.ssl Cases.host
           "signed.ko"%string (Bench.cache_of [Bench.entry_A])
           (mk_result 0 1 None None (Some "sha256"%string)
              (Some "Signature verification failed against all certificates"%string)
              64 2 1700000000)).
  vm_compute. reflexivity.
Defined.

Lemma load_from_dir_reads_recognised_names_only_witness :
  @pg_load_certificates_from_dir Bench.ssl Cases.host "/k" initial_globals =
  @pg_load_certificates_from_dir Bench.ssl Cases.host_without_other "/k"
    initial_globals.
Proof.
  apply (load_from_dir_reads_recognised_names_only Bench.ssl
           Cases.host_without_other Cases.host "/k"%string initial_globals).
  - intros name [<-|[<-|[<-|[<-|[<-|[]]]]]]; split; reflexivity.
  - reflexivity.
Defined.

